(** * Context compaction orchestrator (ContextManager.tsx)

    A shallow embedding of the React provider in
    [ui/desktop/src/components/context_management/ContextManager.tsx]:
    the two pieces of provider state, the JavaScript object store the
    message arrays live in, the caller-supplied callbacks (observed as a
    trace of calls), the timer queue, and the single suspension point of
    [performCompaction] (the [await] on the summarization request).

    What the model takes for granted:
    - the callbacks ([setMessages], [append], [setAncestorMessages],
      [clearAlerts]) are opaque: a call is recorded with its arguments
      and writes nothing in the store; it returns normally, except in
      [Throwing], where a callback may throw;
    - the summarization collaborator only answers: its completion (a
      response or a thrown value) is an input of the resumed run;
    - the conversion collaborator is a function of its three arguments
      that returns a new message or throws;
    - no time passes inside one synchronous stretch of code. *)

From stdpp Require Import gmap strings list fin_maps pretty.
From Stdlib Require Import ZArith.

Open Scope string_scope.
Open Scope list_scope.
Open Scope Z_scope.

(** ** Messages

    [Message] is imported by the source from [types/message], which is
    not part of the sources at hand; lines 102-114 build one field by
    field. *)

Inductive Role := user | assistant.

(** Modelled from the spec: a typed content block, which
    [types/message] declares.  [type] is the kind compared by
    [hasCompactionMarker]; [props] holds the remaining properties (the
    [msg] of line 109). *)
Record MessageContent := {
  type : string;
  props : list (string * string)
}.

(** Modelled from the spec: the [Message] type of [types/message]:
    identifier, role, creation timestamp, an ordered sequence of typed
    content blocks and the two boolean flags. *)
Record Message := {
  id : string;
  role : Role;
  created : Z;
  content : list MessageContent;
  display : bool;
  sendToLLM : bool
}.

(** ** The object store

    Message objects and message arrays are JavaScript objects: they are
    passed by reference, so the model keeps them in a store and passes
    locations.  Content blocks are never written by this module and are
    kept by value inside their message. *)

Definition loc := positive.

Inductive obj :=
| OMessage (m : Message)
| OArray (elems : list loc).

(** A thrown value: an [Error] instance with its [message], or any other
    value ([err instanceof Error] on line 99 tells them apart). *)
Inductive Thrown :=
| ErrorObject (message : string)
| OtherValue (repr : string).

(** How an evaluation completes: normally with a value, or by throwing. *)
Inductive Completion (A : Type) :=
| Normal (a : A)
| Throws (e : Thrown).
Arguments Normal {A} a.
Arguments Throws {A} e.

(** A function value as this module sees it: a callback supplied by the
    caller, opaque and identified by name, or the arrow function
    [() => {}] of line 151. *)
Inductive Fn :=
| Callback (name : string)
| ArrowNoop.

(** What the outside observes, in order: calls of caller-supplied
    callbacks with their arguments, the request sent to the summarization
    collaborator, and [console.error]. *)
Inductive Event :=
| Called (name : string) (args : list loc)
| BackendRequest (messages : loc) (manageAction : string)
| ConsoleError (label : string) (err : Thrown).

(** A pending [setTimeout] callback of the shape [() => { f(arg) }]. *)
Record Timer := {
  due : Z;
  callee : Fn;
  arg : loc
}.

Record World := {
  heap : gmap loc obj;
  isCompacting : bool;
  compactionError : option string;
  trace : list Event;
  timers : list Timer;
  now : Z
}.

Definition with_heap (h : gmap loc obj) (w : World) : World :=
  {| heap := h; isCompacting := isCompacting w;
     compactionError := compactionError w; trace := trace w;
     timers := timers w; now := now w |}.

Definition with_isCompacting (b : bool) (w : World) : World :=
  {| heap := heap w; isCompacting := b;
     compactionError := compactionError w; trace := trace w;
     timers := timers w; now := now w |}.

Definition with_compactionError (e : option string) (w : World) : World :=
  {| heap := heap w; isCompacting := isCompacting w;
     compactionError := e; trace := trace w;
     timers := timers w; now := now w |}.

Definition with_trace (t : list Event) (w : World) : World :=
  {| heap := heap w; isCompacting := isCompacting w;
     compactionError := compactionError w; trace := t;
     timers := timers w; now := now w |}.

Definition with_timers (ts : list Timer) (w : World) : World :=
  {| heap := heap w; isCompacting := isCompacting w;
     compactionError := compactionError w; trace := trace w;
     timers := ts; now := now w |}.

Definition with_now (t : Z) (w : World) : World :=
  {| heap := heap w; isCompacting := isCompacting w;
     compactionError := compactionError w; trace := trace w;
     timers := timers w; now := t |}.

(** ** Synchronous code: state and exceptions *)

Definition Sync (A : Type) : Type := World -> World * Completion A.

(** ** Asynchronous code

    An [async] function runs synchronously up to its first [await] and
    then hands control back; it is resumed with the completion of the
    awaited promise, in whatever world exists by then.  [R] is the type
    of the awaited value. *)
Inductive Run (R A : Type) :=
| Settled (w : World) (c : Completion A)
| Pending (w : World) (k : Completion R -> World -> Run R A).
Arguments Settled {R A} w c.
Arguments Pending {R A} w k.

Definition Async (R A : Type) : Type := World -> Run R A.

Class Monad (M : Type -> Type) := {
  ret : forall {A}, A -> M A;
  bind : forall {A B}, M A -> (A -> M B) -> M B
}.

Notation "'let!' x ':=' e1 'in' e2" := (bind e1 (fun x => e2))
  (at level 10, x name, e1 at level 100, e2 at level 200,
   format "'[v' 'let!'  x  ':='  e1  'in' '/' e2 ']'").
Notation "e1 ;; e2" := (bind e1 (fun _ => e2))
  (at level 100, e2 at level 200, right associativity,
   format "'[v' e1 ;; '/' e2 ']'").

Definition bindS {A B} (m : Sync A) (f : A -> Sync B) : Sync B :=
  fun w =>
    match m w with
    | (w1, Normal a) => f a w1
    | (w1, Throws e) => (w1, Throws e)
    end.

#[export] Instance Sync_monad : Monad Sync := {
  ret _ a := fun w => (w, Normal a);
  bind _ _ := bindS
}.

Definition throw {A} (e : Thrown) : Sync A := fun w => (w, Throws e).

Fixpoint bind_run {R A B} (r : Run R A) (f : A -> Async R B) : Run R B :=
  match r with
  | Settled w (Normal a) => f a w
  | Settled w (Throws e) => Settled w (Throws e)
  | Pending w k => Pending w (fun c w' => bind_run (k c w') f)
  end.

#[export] Instance Async_monad R : Monad (Async R) := {
  ret _ a := fun w => Settled w (Normal a);
  bind _ _ m f := fun w => bind_run (m w) f
}.

(** [try { body } catch (err) { handler }] around code that may await. *)
Fixpoint catch_run {R A} (r : Run R A) (handler : Thrown -> Async R A) : Run R A :=
  match r with
  | Settled w (Normal a) => Settled w (Normal a)
  | Settled w (Throws e) => handler e w
  | Pending w k => Pending w (fun c w' => catch_run (k c w') handler)
  end.

Definition try_catch {R A} (body : Async R A) (handler : Thrown -> Async R A) : Async R A :=
  fun w => catch_run (body w) handler.

(** Synchronous code inside an [async] function. *)
Definition sync {R A} (m : Sync A) : Async R A :=
  fun w => let (w1, c) := m w in Settled w1 c.

(** [await p]: suspend until the promise [p] settles; a rejection is
    re-thrown at the await. *)
Definition await {R} (p : Sync unit) : Async R R :=
  fun w =>
    match p w with
    | (w1, Normal _) => Pending w1 (fun c w' => Settled w' c)
    | (w1, Throws e) => Settled w1 (Throws e)
    end.

(** ** The JavaScript primitives the source uses *)

(** A new object gets a location that the store does not use yet. *)
Definition alloc (o : obj) : Sync loc :=
  fun w =>
    let l := fresh (dom (heap w)) in
    (with_heap (<[l := o]> (heap w)) w, Normal l).

Definition typeError {A} (what : string) : Sync A :=
  throw (ErrorObject what).

Definition readArray (a : loc) : Sync (list loc) :=
  fun w =>
    match heap w !! a with
    | Some (OArray elems) => (w, Normal elems)
    | _ => typeError "not an array" w
    end.

(** Reading a message object.  The source's types ([Message[]]) leave
    no other kind of element; on one, the model throws. *)
Definition readMessage (l : loc) : Sync Message :=
  fun w =>
    match heap w !! l with
    | Some (OMessage m) => (w, Normal m)
    | _ => typeError "not a message" w
    end.

(** [xs.map((x, index) => f(x, index))] over the elements [xs], from
    position [index] on: the callback runs on each element in order and
    the first throw ends the loop. *)
Fixpoint mapi_sync {A B} (f : A -> nat -> Sync B) (xs : list A) (index : nat)
  : Sync (list B) :=
  match xs with
  | [] => ret []
  | x :: xs' =>
      let! y := f x index in
      let! ys := mapi_sync f xs' (S index) in
      ret (y :: ys)
  end.

(** [a.map(f)] on an array of the store: a new array of the results. *)
Definition array_map (f : loc -> nat -> Sync loc) (a : loc) : Sync loc :=
  let! elems := readArray a in
  let! results := mapi_sync f elems 0%nat in
  alloc (OArray results).

(** [a[i]]: [undefined] (here [None]) out of range. *)
Definition array_get (a : loc) (i : nat) : Sync (option loc) :=
  let! elems := readArray a in
  ret (elems !! i).

(** [[...a, x]]: a new array with the elements of [a] and then [x]. *)
Definition array_spread_with (a : loc) (x : loc) : Sync loc :=
  let! elems := readArray a in
  alloc (OArray (elems ++ [x])).

(** [{...msg, display: d, sendToLLM: s}]: a new object with the
    properties of [msg] and the two flags overridden. *)
Definition spread_with_flags (msg : loc) (d s : bool) : Sync loc :=
  let! m := readMessage msg in
  alloc (OMessage {| id := id m; role := role m; created := created m;
                     content := content m; display := d; sendToLLM := s |}).

(** Calling a function value that returns: a caller's callback is
    recorded with its arguments; the no-op arrow function does nothing.
    Callbacks that throw are the subject of [Throwing] below. *)
Definition call (f : Fn) (args : list loc) : Sync unit :=
  fun w =>
    match f with
    | Callback name => (with_trace (trace w ++ [Called name args]) w, Normal tt)
    | ArrowNoop => (w, Normal tt)
    end.

Definition console_error (label : string) (err : Thrown) : Sync unit :=
  fun w => (with_trace (trace w ++ [ConsoleError label err]) w, Normal tt).

(** [Date.now()]: the clock of the world; it does not move within one
    synchronous stretch. *)
Definition Date_now : Sync Z := fun w => (w, Normal (now w)).

(** Timers are kept in firing order: by due time, and in registration
    order among equal due times. *)
Fixpoint enqueue (t : Timer) (ts : list Timer) : list Timer :=
  match ts with
  | [] => [t]
  | t' :: ts' => if due t <? due t' then t :: t' :: ts' else t' :: enqueue t ts'
  end.

(** [setTimeout(() => { f(arg) }, delay)]. *)
Definition setTimeout (f : Fn) (arg : loc) (delay : Z) : Sync unit :=
  fun w =>
    (with_timers (enqueue {| due := now w + delay; callee := f; arg := arg |}
                          (timers w)) w, Normal tt).

(** The event loop runs the timers that are due, in firing order. *)
Fixpoint fire (ts : list Timer) (w : World) : World :=
  match ts with
  | [] => w
  | t :: ts' =>
      if due t <=? now w
      then fire ts' (fst (call (callee t) [arg t] (with_timers ts' w)))
      else w
  end.

(** [d] time units pass and the due timers run. *)
Definition elapse (d : Z) (w : World) : World :=
  let w1 := with_now (now w + d) w in
  fire (timers w1) w1.

(** The React state setters of lines 35-36. *)
Definition setIsCompacting (b : bool) : Sync unit :=
  fun w => (with_isCompacting b w, Normal tt).

Definition setCompactionError (e : option string) : Sync unit :=
  fun w => (with_compactionError e w, Normal tt).

(** Calling the summarization collaborator sends the request; the promise
    it returns is what [performCompaction] awaits. *)
Definition manageContextFromBackend (messages : loc) (manageAction : string)
  : Sync unit :=
  fun w => (with_trace (trace w ++ [BackendRequest messages manageAction]) w,
            Normal tt).

(** ** The orchestrator *)

(** Modelled from the spec: what the summarization collaborator resolves
    with, an object whose [messages] property holds the ordered raw
    messages (line 57). *)
Module Response.
Record t (ApiMessage : Type) := { messages : list ApiMessage }.
Arguments messages {ApiMessage} _.
End Response.

Section Orchestrator.

(** The raw message type and the conversion collaborator are imported by
    the source from [./index]; the orchestrator is defined over any such
    pair.  A conversion returns the frontend message or throws. *)
Variable ApiMessage : Type.
Variable convertApiMessageToFrontendMessage :
  ApiMessage -> bool -> bool -> Completion Message.

(** A call of the conversion collaborator.  The message it returns is
    kept as a new object of the store; whether the collaborator builds a
    new object on each call is not settled by the sources at hand, and no
    property below is stated about the identity of converted messages. *)
Definition convert (apiMessage : ApiMessage) (d s : bool) : Sync loc :=
  match convertApiMessageToFrontendMessage apiMessage d s with
  | Normal m => alloc (OMessage m)
  | Throws e => throw e
  end.

(** Line 99: [err instanceof Error ? err.message : 'Unknown error during
    compaction']. *)
Definition errorText (err : Thrown) : string :=
  match err with
  | ErrorObject message => message
  | OtherValue _ => "Unknown error during compaction"
  end.

(** Lines 102-114, with the two readings of the clock. *)
Definition errorMarker (t1 t2 : Z) : Message :=
  {| id := "compaction-error-" +:+ pretty t1;
     role := assistant;
     created := t2 / 1000;
     content :=
       [ {| type := "summarizationRequested";
            props := [("msg", "Compaction failed. Please try again or start a new session.")] |} ];
     display := true;
     sendToLLM := false |}.

(** Lines 38-121. *)
Definition performCompaction (messages : loc) (setMessages : Fn) (append : Fn)
    (_isManual : bool) (setAncestorMessages : option Fn)
  : Async (Response.t ApiMessage) unit :=
  sync (setIsCompacting true ;;
        setCompactionError None) ;;
  try_catch
    (let! summaryResponse :=
       await (manageContextFromBackend messages "summarize") in
     sync (
       let! results :=
         mapi_sync (fun apiMessage index =>
                      if (index =? 0)%nat
                      then convert apiMessage true false
                      else if (index =? 1)%nat
                      then convert apiMessage false true
                      else convert apiMessage false true)
                   (Response.messages summaryResponse) 0%nat in
       let! convertedMessages := alloc (OArray results) in
       match setAncestorMessages with
       | Some setAncestorMessages =>
           let! ancestorMessages :=
             array_map (fun msg _ => spread_with_flags msg true false) messages in
           call setAncestorMessages [ancestorMessages]
       | None => ret tt
       end ;;
       call setMessages [convertedMessages] ;;
       let! continuationMessage := array_get convertedMessages 2 in
       match continuationMessage with
       | Some continuationMessage => setTimeout append continuationMessage 100
       | None => ret tt
       end ;;
       setIsCompacting false))
    (fun err =>
       sync (
         console_error "Error during compaction:" err ;;
         setCompactionError (Some (errorText err)) ;;
         let! t1 := Date_now in
         let! t2 := Date_now in
         let! marker := alloc (OMessage (errorMarker t1 t2)) in
         let! withMarker := array_spread_with messages marker in
         call setMessages [withMarker] ;;
         setIsCompacting false)).

(** Lines 123-133. *)
Definition handleAutoCompaction (messages : loc) (setMessages : Fn) (append : Fn)
    (setAncestorMessages : option Fn) : Async (Response.t ApiMessage) unit :=
  performCompaction messages setMessages append false setAncestorMessages.

(** Lines 135-157. *)
Definition handleManualCompaction (messages : loc) (setMessages : Fn)
    (append : option Fn) (clearAlerts : option Fn)
    (setAncestorMessages : option Fn) : Async (Response.t ApiMessage) unit :=
  sync match clearAlerts with
       | Some clearAlerts => call clearAlerts []
       | None => ret tt
       end ;;
  performCompaction messages setMessages
    (match append with Some append => append | None => ArrowNoop end)
    true setAncestorMessages.

End Orchestrator.

(** Lines 159-161: [message.content.some(...)]. *)
Definition hasCompactionMarker (message : loc) : Sync bool :=
  let! m := readMessage message in
  ret (existsb (fun content => String.eqb (type content) "summarizationRequested")
               (content m)).

(** ** Reading the store and the runs *)

Definition elementsAt (h : gmap loc obj) (a : loc) : option (list loc) :=
  match h !! a with
  | Some (OArray elems) => Some elems
  | _ => None
  end.

Definition messageAt (h : gmap loc obj) (l : loc) : option Message :=
  match h !! l with
  | Some (OMessage m) => Some m
  | _ => None
  end.

(** The message sequence an array reference stands for. *)
Definition messagesAt (h : gmap loc obj) (a : loc) : option (list Message) :=
  match elementsAt h a with
  | Some elems => mapM (messageAt h) elems
  | None => None
  end.

(** The events a call of [f] on [args] leaves in the trace. *)
Definition called (f : Fn) (args : list loc) : list Event :=
  match f with
  | Callback name => [Called name args]
  | ArrowNoop => []
  end.

(** What a suspended run does once the awaited promise completes with [c]
    while the world is [w']. *)
Definition resume {R A} (r : Run R A) (c : Completion R) (w' : World) : Run R A :=
  match r with
  | Pending _ k => k c w'
  | Settled w c0 => Settled w c0
  end.

(** The world a run stands in: where it waits, or where it settled. *)
Definition world_of {R A} (r : Run R A) : World :=
  match r with
  | Pending w _ => w
  | Settled w _ => w
  end.

Definition is_pending {R A} (r : Run R A) : bool :=
  match r with
  | Pending _ _ => true
  | Settled _ _ => false
  end.

(** [{...m, display: true, sendToLLM: false}] on values. *)
Definition asAncestor (m : Message) : Message :=
  {| id := id m; role := role m; created := created m; content := content m;
     display := true; sendToLLM := false |}.

Section Conversions.

Variable ApiMessage : Type.
Variable convertApiMessageToFrontendMessage :
  ApiMessage -> bool -> bool -> Completion Message.

(** Modelled from the spec: the contract of the conversion collaborator
    of [./index], which given one raw message and two booleans returns
    one message with those flags applied. *)
Definition applies_flags : Prop :=
  forall a d s m,
    convertApiMessageToFrontendMessage a d s = Normal m ->
    display m = d /\ sendToLLM m = s.

(** The conversion that the callback of lines 57-72 asks for at position
    [index], on values. *)
Definition conversionAt (index : nat) (apiMessage : ApiMessage) : Completion Message :=
  if (index =? 0)%nat
  then convertApiMessageToFrontendMessage apiMessage true false
  else if (index =? 1)%nat
  then convertApiMessageToFrontendMessage apiMessage false true
  else convertApiMessageToFrontendMessage apiMessage false true.

(** The whole [map] of lines 57-72 on values: the converted messages, or
    the first conversion failure. *)
Fixpoint conversions (index : nat) (xs : list ApiMessage) : Completion (list Message) :=
  match xs with
  | [] => Normal []
  | x :: xs' =>
      match conversionAt index x with
      | Throws e => Throws e
      | Normal m =>
          match conversions (S index) xs' with
          | Normal ms => Normal (m :: ms)
          | Throws e => Throws e
          end
      end
  end.

(** The failure a completion of the summarization request leads to, if
    any: the rejection itself, or the first conversion that throws. *)
Definition failureOf (c : Completion (Response.t ApiMessage)) : option Thrown :=
  match c with
  | Throws e => Some e
  | Normal summaryResponse =>
      match conversions 0 (Response.messages summaryResponse) with
      | Throws e => Some e
      | Normal _ => None
      end
  end.

End Conversions.

Arguments convert {ApiMessage} _ _ _ _.
Arguments performCompaction {ApiMessage} _ _ _ _ _ _.
Arguments handleAutoCompaction {ApiMessage} _ _ _ _ _.
Arguments handleManualCompaction {ApiMessage} _ _ _ _ _ _.
Arguments conversionAt {ApiMessage} _ _ _.
Arguments conversions {ApiMessage} _ _ _.
Arguments failureOf {ApiMessage} _ _.
Arguments applies_flags {ApiMessage} _.

(** ** Callbacks that may throw

    A callback supplied by the caller can also throw.  [Callable] adds
    that case to [Fn], and [Throwing] holds the same functions of the
    source over it.  [append] stays an [Fn]: it is only ever called from
    the timer callback of lines 91-93, after the function has settled, so
    what it does cannot reach the promise. *)
Inductive Callable :=
| Returning (f : Fn)
| Raising (name : string) (e : Thrown).

Definition returnsNormally (f : Callable) : bool :=
  match f with
  | Returning _ => true
  | Raising _ _ => false
  end.

Module Throwing.

(** A callback that throws is recorded like any other call, and then
    completes by throwing. *)
Definition call (f : Callable) (args : list loc) : Sync unit :=
  match f with
  | Returning f => call f args
  | Raising name e =>
      fun w => (with_trace (trace w ++ [Called name args]) w, Throws e)
  end.

Section Orchestrator.

Variable ApiMessage : Type.
Variable convertApiMessageToFrontendMessage :
  ApiMessage -> bool -> bool -> Completion Message.

(** Lines 38-121. *)
Definition performCompaction (messages : loc) (setMessages : Callable)
    (append : Fn) (_isManual : bool) (setAncestorMessages : option Callable)
  : Async (Response.t ApiMessage) unit :=
  sync (setIsCompacting true ;;
        setCompactionError None) ;;
  try_catch
    (let! summaryResponse :=
       await (manageContextFromBackend messages "summarize") in
     sync (
       let! results :=
         mapi_sync (fun apiMessage index =>
                      if (index =? 0)%nat
                      then convert convertApiMessageToFrontendMessage
                             apiMessage true false
                      else if (index =? 1)%nat
                      then convert convertApiMessageToFrontendMessage
                             apiMessage false true
                      else convert convertApiMessageToFrontendMessage
                             apiMessage false true)
                   (Response.messages summaryResponse) 0%nat in
       let! convertedMessages := alloc (OArray results) in
       match setAncestorMessages with
       | Some setAncestorMessages =>
           let! ancestorMessages :=
             array_map (fun msg _ => spread_with_flags msg true false) messages in
           call setAncestorMessages [ancestorMessages]
       | None => ret tt
       end ;;
       call setMessages [convertedMessages] ;;
       let! continuationMessage := array_get convertedMessages 2 in
       match continuationMessage with
       | Some continuationMessage => setTimeout append continuationMessage 100
       | None => ret tt
       end ;;
       setIsCompacting false))
    (fun err =>
       sync (
         console_error "Error during compaction:" err ;;
         setCompactionError (Some (errorText err)) ;;
         let! t1 := Date_now in
         let! t2 := Date_now in
         let! marker := alloc (OMessage (errorMarker t1 t2)) in
         let! withMarker := array_spread_with messages marker in
         call setMessages [withMarker] ;;
         setIsCompacting false)).

(** Lines 123-133. *)
Definition handleAutoCompaction (messages : loc) (setMessages : Callable)
    (append : Fn) (setAncestorMessages : option Callable)
  : Async (Response.t ApiMessage) unit :=
  performCompaction messages setMessages append false setAncestorMessages.

(** Lines 135-157. *)
Definition handleManualCompaction (messages : loc) (setMessages : Callable)
    (append : option Fn) (clearAlerts : option Callable)
    (setAncestorMessages : option Callable)
  : Async (Response.t ApiMessage) unit :=
  sync match clearAlerts with
       | Some clearAlerts => call clearAlerts []
       | None => ret tt
       end ;;
  performCompaction messages setMessages
    (match append with Some append => append | None => ArrowNoop end)
    true setAncestorMessages.

End Orchestrator.

Arguments performCompaction {ApiMessage} _ _ _ _ _ _.
Arguments handleAutoCompaction {ApiMessage} _ _ _ _ _.
Arguments handleManualCompaction {ApiMessage} _ _ _ _ _ _.

End Throwing.

(** ** Sample inputs

    A conversion collaborator over raw messages that are plain strings, a
    store holding a three-message transcript, and summarization
    responses of several lengths. *)
Module Sample.

Definition toFrontend (apiMessage : string) (d s : bool) : Completion Message :=
  if String.eqb apiMessage "malformed"
  then Throws (ErrorObject "cannot convert message")
  else Normal {| id := apiMessage; role := assistant; created := 0;
                 content := [ {| type := "text"; props := [("text", apiMessage)] |} ];
                 display := d; sendToLLM := s |}.

Definition userMsg : Message :=
  {| id := "m1"; role := user; created := 1700000000;
     content := [ {| type := "text"; props := [("text", "hello")] |} ];
     display := true; sendToLLM := true |}.

Definition assistantMsg : Message :=
  {| id := "m2"; role := assistant; created := 1700000001;
     content := [ {| type := "text"; props := [("text", "hi")] |} ];
     display := false; sendToLLM := true |}.

Definition markerMsg : Message :=
  {| id := "m3"; role := assistant; created := 1700000002;
     content := [ {| type := "text"; props := [("text", "compacted")] |};
                  {| type := "summarizationRequested"; props := [("msg", "summary")] |} ];
     display := true; sendToLLM := false |}.

Definition store : gmap loc obj :=
  <[4%positive := OArray [1%positive; 2%positive; 3%positive]]>
    (<[3%positive := OMessage markerMsg]>
       (<[2%positive := OMessage assistantMsg]>
          (<[1%positive := OMessage userMsg]> ∅))).

(** The transcript is the array at location 4; an earlier attempt has
    left an error behind. *)
Definition messages : loc := 4%positive.

Definition world : World :=
  {| heap := store; isCompacting := false;
     compactionError := Some "earlier failure";
     trace := []; timers := []; now := 1700000003123 |}.

Definition summary : Response.t string :=
  {| Response.messages := ["marker"; "summary"; "continuation"] |}.

Definition shortSummary : Response.t string :=
  {| Response.messages := ["marker"; "summary"] |}.

Definition longSummary : Response.t string :=
  {| Response.messages := ["marker"; "summary"; "continuation"; "extra"; "more"] |}.

Definition badSummary : Response.t string :=
  {| Response.messages := ["marker"; "malformed"; "continuation"] |}.

End Sample.

(** ** Store lemmas *)

Lemma with_heap_id w : with_heap (heap w) w = w.
Proof. by destruct w. Qed.

Lemma with_heap_twice h1 h2 w : with_heap h2 (with_heap h1 w) = with_heap h2 w.
Proof. done. Qed.

Lemma fresh_unused (h : gmap loc obj) : h !! fresh (dom h) = None.
Proof. apply not_elem_of_dom, is_fresh. Qed.

Lemma alloc_extends (h : gmap loc obj) (o : obj) : h ⊆ <[fresh (dom h) := o]> h.
Proof. apply insert_subseteq, fresh_unused. Qed.

Lemma unused_weaken (h h2 : gmap loc obj) (l : loc) :
  h ⊆ h2 -> h2 !! l = None -> h !! l = None.
Proof.
  intros Hsub Hl. destruct (h !! l) as [o|] eqn:E; [|done].
  rewrite (lookup_weaken _ _ _ _ E Hsub) in Hl. done.
Qed.

Lemma messageAt_weaken (h h2 : gmap loc obj) l m :
  h ⊆ h2 -> messageAt h l = Some m -> messageAt h2 l = Some m.
Proof.
  unfold messageAt. intros Hsub H.
  destruct (h !! l) as [[m'|]|] eqn:E; try done.
  by rewrite (lookup_weaken _ _ _ _ E Hsub).
Qed.

Lemma messagesAt_elems h a ms :
  messagesAt h a = Some ms <->
  exists elems, h !! a = Some (OArray elems) /\
                Forall2 (fun l m => messageAt h l = Some m) elems ms.
Proof.
  unfold messagesAt, elementsAt. split.
  - destruct (h !! a) as [[|elems]|]; try done.
    intros H. exists elems. split; [done|]. by apply mapM_Some.
  - intros (elems & -> & H). by apply mapM_Some.
Qed.

Lemma Forall2_messageAt_weaken (h h2 : gmap loc obj) ls ms :
  h ⊆ h2 ->
  Forall2 (fun l m => messageAt h l = Some m) ls ms ->
  Forall2 (fun l m => messageAt h2 l = Some m) ls ms.
Proof.
  intros Hsub H. eapply Forall2_impl; [exact H|].
  intros l m. by apply messageAt_weaken.
Qed.

Lemma Forall_unused_weaken (h h2 : gmap loc obj) (ls : list loc) :
  h ⊆ h2 ->
  Forall (fun l => h2 !! l = None) ls -> Forall (fun l => h !! l = None) ls.
Proof.
  intros Hsub H. eapply Forall_impl; [exact H|].
  intros l. by apply unused_weaken.
Qed.

Lemma messagesAt_weaken (h h2 : gmap loc obj) a ms :
  h ⊆ h2 -> messagesAt h a = Some ms -> messagesAt h2 a = Some ms.
Proof.
  intros Hsub (elems & Harr & Hms)%messagesAt_elems.
  apply messagesAt_elems. exists elems. split.
  - by apply (lookup_weaken h).
  - by apply (Forall2_messageAt_weaken h).
Qed.

(** ** The two loops *)

Section Loops.

Context {ApiMessage : Type}.
Variable toFrontend : ApiMessage -> bool -> bool -> Completion Message.

Lemma convert_as_conversionAt (apiMessage : ApiMessage) (index : nat) :
  (if (index =? 0)%nat then convert toFrontend apiMessage true false
   else if (index =? 1)%nat then convert toFrontend apiMessage false true
   else convert toFrontend apiMessage false true)
  = match conversionAt toFrontend index apiMessage with
    | Normal m => alloc (OMessage m)
    | Throws e => throw e
    end.
Proof.
  unfold conversionAt, convert.
  destruct (index =? 0)%nat; [done|]. by destruct (index =? 1)%nat.
Qed.

(** The callback of lines 57-72, as it stands in [performCompaction]. *)
Local Abbreviation perIndex :=
  (fun apiMessage index =>
     if (index =? 0)%nat
     then convert toFrontend apiMessage true false
     else if (index =? 1)%nat
     then convert toFrontend apiMessage false true
     else convert toFrontend apiMessage false true).

Lemma mapi_sync_cons {A B} (f : A -> nat -> Sync B) x xs index w :
  mapi_sync f (x :: xs) index w =
  match f x index w with
  | (w1, Normal y) =>
      match mapi_sync f xs (S index) w1 with
      | (w2, Normal ys) => (w2, Normal (y :: ys))
      | (w2, Throws e) => (w2, Throws e)
      end
  | (w1, Throws e) => (w1, Throws e)
  end.
Proof.
  simpl. unfold bindS. destruct (f x index w) as [w1 [y|e]]; [|done].
  by destruct (mapi_sync f xs (S index) w1) as [w2 [ys|e]].
Qed.

(** The conversion loop follows [conversions]; it only adds objects to
    the store. *)
Lemma conversion_loop (xs : list ApiMessage) :
  forall (index : nat) (w : World),
  exists h2, heap w ⊆ h2 /\
    match conversions toFrontend index xs with
    | Normal ms =>
        exists ls,
          mapi_sync perIndex xs index w = (with_heap h2 w, Normal ls) /\
          Forall2 (fun l m => messageAt h2 l = Some m) ls ms /\
          Forall (fun l => heap w !! l = None) ls
    | Throws e =>
        mapi_sync perIndex xs index w = (with_heap h2 w, Throws e)
    end.
Proof.
  induction xs as [|x xs IH]; intros index w.
  - exists (heap w). split; [done|]. simpl. exists [].
    rewrite with_heap_id. by repeat split.
  - rewrite mapi_sync_cons, convert_as_conversionAt. simpl.
    destruct (conversionAt toFrontend index x) as [m|e].
    + unfold alloc. cbv beta iota zeta.
      set (l := fresh (dom (heap w))).
      set (w1 := with_heap (<[l:=OMessage m]> (heap w)) w).
      destruct (IH (S index) w1) as (h2 & Hsub & Hrest).
      assert (Hw : heap w ⊆ h2).
      { etrans; [|exact Hsub]. apply alloc_extends. }
      exists h2. split; [done|].
      destruct (conversions toFrontend (S index) xs) as [ms|e].
      * destruct Hrest as (ls & Hrun & Hms & Hfresh).
        exists (l :: ls). rewrite Hrun. simpl.
        split; [done|]. split.
        -- constructor; [|done].
           apply (messageAt_weaken (heap w1)); [done|].
           unfold messageAt, w1. simpl. by rewrite lookup_insert_eq.
        -- constructor; [apply fresh_unused|].
           eapply Forall_unused_weaken; [|exact Hfresh]. apply alloc_extends.
      * by rewrite Hrest.
    + exists (heap w). split; [done|]. by rewrite with_heap_id.
Qed.

(** The ancestor loop copies every message into a new object with the
    two flags forced. *)
Lemma ancestor_loop (elems : list loc) :
  forall (olds : list Message) (index : nat) (w : World),
  Forall2 (fun l m => messageAt (heap w) l = Some m) elems olds ->
  exists h2 copies,
    mapi_sync (fun msg (_ : nat) => spread_with_flags msg true false) elems index w
    = (with_heap h2 w, Normal copies) /\
    heap w ⊆ h2 /\
    Forall2 (fun l m => messageAt h2 l = Some m) copies (map asAncestor olds) /\
    Forall (fun l => heap w !! l = None) copies /\
    NoDup copies.
Proof.
  induction elems as [|e elems IH]; intros olds index w Holds.
  - apply Forall2_nil_inv_l in Holds as ->.
    exists (heap w), []. rewrite with_heap_id.
    repeat split; try done. constructor.
  - apply Forall2_cons_inv_l in Holds as (m & olds' & Hm & Holds' & ->).
    rewrite mapi_sync_cons.
    unfold spread_with_flags at 1. simpl. unfold bindS at 1, readMessage.
    unfold messageAt in Hm. destruct (heap w !! e) as [[m'|]|] eqn:E; try done.
    injection Hm as ->.
    unfold alloc at 1. fold (asAncestor m).
    set (l := fresh (dom (heap w))).
    set (w1 := with_heap (<[l:=OMessage (asAncestor m)]> (heap w)) w).
    destruct (IH olds' (S index) w1)
      as (h2 & copies & Hrun & Hsub & Hcopies & Hfresh & Hnodup).
    { eapply Forall2_messageAt_weaken; [|exact Holds']. apply alloc_extends. }
    exists h2, (l :: copies).
    rewrite Hrun. simpl.
    split; [done|]. split; [etrans; [apply alloc_extends|exact Hsub]|].
    split; [|split].
    + constructor; [|done].
      apply (messageAt_weaken (heap w1)); [done|].
      unfold messageAt, w1. simpl. by rewrite lookup_insert_eq.
    + constructor; [apply fresh_unused|].
      eapply Forall_unused_weaken; [|exact Hfresh]. apply alloc_extends.
    + constructor; [|done].
      intros Hin. rewrite Forall_forall in Hfresh.
      specialize (Hfresh l Hin). unfold w1 in Hfresh. simpl in Hfresh.
      by rewrite lookup_insert_eq in Hfresh.
Qed.

End Loops.

(** ** Single steps *)

Lemma with_trace_id w : with_trace (trace w) w = w.
Proof. by destruct w. Qed.

Lemma call_run f args w :
  call f args w = (with_trace (trace w ++ called f args) w, Normal tt).
Proof.
  destruct f; simpl; [done|]. by rewrite app_nil_r, with_trace_id.
Qed.

Lemma array_get_run a i w elems :
  heap w !! a = Some (OArray elems) ->
  array_get a i w = (w, Normal (elems !! i)).
Proof.
  intros H. unfold array_get. simpl. unfold bindS, readArray. by rewrite H.
Qed.

Lemma array_spread_with_run a x w elems :
  heap w !! a = Some (OArray elems) ->
  array_spread_with a x w
  = (with_heap (<[fresh (dom (heap w)) := OArray (elems ++ [x])]> (heap w)) w,
     Normal (fresh (dom (heap w)))).
Proof.
  intros H. unfold array_spread_with. simpl. unfold bindS, readArray.
  by rewrite H.
Qed.

(** The ancestor snapshot of lines 76-80. *)
Lemma ancestor_map_run messages w olds :
  messagesAt (heap w) messages = Some olds ->
  exists h2 ancestorMessages copies,
    array_map (fun msg (_ : nat) => spread_with_flags msg true false) messages w
    = (with_heap h2 w, Normal ancestorMessages) /\
    heap w ⊆ h2 /\
    heap w !! ancestorMessages = None /\
    h2 !! ancestorMessages = Some (OArray copies) /\
    Forall2 (fun l m => messageAt h2 l = Some m) copies (map asAncestor olds) /\
    Forall (fun l => heap w !! l = None) copies /\
    NoDup copies.
Proof.
  intros (elems & Harr & Holds)%messagesAt_elems.
  destruct (ancestor_loop elems olds 0%nat w Holds)
    as (h1 & copies & Hrun & Hsub & Hcopies & Hfresh & Hnodup).
  exists (<[fresh (dom h1) := OArray copies]> h1), (fresh (dom h1)), copies.
  unfold array_map. simpl. unfold bindS, readArray. rewrite Harr, Hrun.
  split; [done|].
  split; [etrans; [exact Hsub|apply alloc_extends]|].
  split; [eapply unused_weaken; [exact Hsub|apply fresh_unused]|].
  split; [by rewrite lookup_insert_eq|].
  split; [|done].
  eapply Forall2_messageAt_weaken; [apply alloc_extends|done].
Qed.

(** ** Timers *)

Lemma elapse_idle d w : timers w = [] -> elapse d w = with_now (now w + d) w.
Proof. unfold elapse. simpl. by intros ->. Qed.

Lemma elapse_single d w t :
  timers w = [t] ->
  trace (elapse d w)
  = trace w ++ (if due t <=? now w + d then called (callee t) [arg t] else []).
Proof.
  unfold elapse. simpl. intros ->. simpl.
  destruct (due t <=? now w + d).
  - by rewrite call_run.
  - by rewrite app_nil_r.
Qed.

(** ** The runs of [performCompaction] *)

Section Runs.

Context {ApiMessage : Type}.
Variable toFrontend : ApiMessage -> bool -> bool -> Completion Message.

(** The success exit. *)
Lemma performCompaction_fulfils messages setMessages append isManual anc w
    summaryResponse w' ms :
  conversions toFrontend 0 (Response.messages summaryResponse) = Normal ms ->
  (is_Some anc -> is_Some (messagesAt (heap w') messages)) ->
  exists w2 convertedMessages ls ancEvents,
    resume (performCompaction toFrontend messages setMessages append isManual anc w)
           (Normal summaryResponse) w'
    = Settled w2 (Normal tt) /\
    heap w' ⊆ heap w2 /\
    heap w' !! convertedMessages = None /\
    heap w2 !! convertedMessages = Some (OArray ls) /\
    Forall2 (fun l m => messageAt (heap w2) l = Some m) ls ms /\
    Forall (fun l => heap w' !! l = None) ls /\
    trace w2 = trace w' ++ ancEvents ++ called setMessages [convertedMessages] /\
    match anc with
    | None => ancEvents = []
    | Some setAncestorMessages =>
        exists ancestorMessages copies olds,
          ancEvents = called setAncestorMessages [ancestorMessages] /\
          messagesAt (heap w') messages = Some olds /\
          heap w' !! ancestorMessages = None /\
          heap w2 !! ancestorMessages = Some (OArray copies) /\
          Forall2 (fun l m => messageAt (heap w2) l = Some m)
                  copies (map asAncestor olds) /\
          Forall (fun l => heap w' !! l = None) copies /\
          NoDup copies
    end /\
    timers w2 =
      match ls !! 2%nat with
      | Some continuationMessage =>
          enqueue {| due := now w' + 100; callee := append;
                     arg := continuationMessage |} (timers w')
      | None => timers w'
      end /\
    isCompacting w2 = false /\
    compactionError w2 = compactionError w' /\
    now w2 = now w'.
Proof.
  intros Hconv Hanc.
  destruct (conversion_loop toFrontend (Response.messages summaryResponse) 0%nat w')
    as (h1 & Hsub1 & Hloop).
  rewrite Hconv in Hloop. destruct Hloop as (ls & Hrun & Hms & Hfresh).
  unfold performCompaction, resume. simpl.
  unfold sync, bindS. rewrite Hrun.
  unfold alloc at 1. simpl.
  set (L := fresh (dom h1)). set (hL := <[L := OArray ls]> h1).
  assert (HsubL : h1 ⊆ hL) by apply alloc_extends.
  assert (HL : hL !! L = Some (OArray ls)) by apply lookup_insert_eq.
  assert (HL' : heap w' !! L = None).
  { eapply unused_weaken; [exact Hsub1|apply fresh_unused]. }
  destruct anc as [setAncestorMessages|].
  - destruct Hanc as [olds Holds]; [by eexists|].
    destruct (ancestor_map_run messages (with_heap hL w') olds)
      as (h2 & A & copies & HrunA & Hsub2 & HA' & HA & Hcopies & HfreshA & Hnodup).
    { eapply messagesAt_weaken; [|exact Holds]. simpl. by etrans. }
    simpl in Hsub2, HA', HfreshA.
    rewrite with_heap_twice, HrunA, !call_run. simpl.
    rewrite (array_get_run _ _ _ ls); [|simpl; by apply (lookup_weaken hL)].
    exists (with_isCompacting false
              (with_timers
                 match ls !! 2%nat with
                 | Some c => enqueue {| due := now w' + 100; callee := append; arg := c |}
                                     (timers w')
                 | None => timers w'
                 end
                 (with_trace ((trace w' ++ called setAncestorMessages [A])
                              ++ called setMessages [L])
                             (with_heap h2 w')))),
      L, ls, (called setAncestorMessages [A]).
    split; [by destruct (ls !! 2%nat)|]. simpl.
    split; [by do 2 (etrans; [eassumption|])|].
    split; [done|].
    split; [by apply (lookup_weaken hL)|].
    split; [eapply Forall2_messageAt_weaken; [|exact Hms]; by etrans|].
    split; [done|].
    split; [by rewrite app_assoc|].
    split; [|done].
    exists A, copies, olds. repeat split; try done.
    + eapply unused_weaken; [|exact HA']. by etrans.
    + eapply Forall_unused_weaken; [|exact HfreshA]. by etrans.
  - rewrite !call_run. simpl.
    rewrite (array_get_run _ _ _ ls); [|done].
    exists (with_isCompacting false
              (with_timers
                 match ls !! 2%nat with
                 | Some c => enqueue {| due := now w' + 100; callee := append; arg := c |}
                                     (timers w')
                 | None => timers w'
                 end
                 (with_trace (trace w' ++ called setMessages [L])
                             (with_heap hL w')))),
      L, ls, [].
    split; [by destruct (ls !! 2%nat)|]. simpl.
    split; [by etrans|].
    split; [done|].
    split; [done|].
    split; [eapply Forall2_messageAt_weaken; [|exact Hms]; done|].
    done.
Qed.

(** The failure exit: the catch block of lines 97-118, entered from a
    rejected request or from a conversion that throws. *)
Lemma performCompaction_recovers messages setMessages append isManual anc w
    c w' err elems :
  failureOf toFrontend c = Some err ->
  heap w' !! messages = Some (OArray elems) ->
  exists w2 marker withMarker,
    resume (performCompaction toFrontend messages setMessages append isManual anc w)
           c w'
    = Settled w2 (Normal tt) /\
    heap w' ⊆ heap w2 /\
    heap w' !! marker = None /\
    heap w' !! withMarker = None /\
    heap w2 !! marker = Some (OMessage (errorMarker (now w') (now w'))) /\
    heap w2 !! withMarker = Some (OArray (elems ++ [marker])) /\
    trace w2
    = trace w' ++ [ConsoleError "Error during compaction:" err]
              ++ called setMessages [withMarker] /\
    timers w2 = timers w' /\
    isCompacting w2 = false /\
    compactionError w2 = Some (errorText err) /\
    now w2 = now w'.
Proof.
  intros Hfail Harr.
  assert (exists h1, heap w' ⊆ h1 /\
            resume (performCompaction toFrontend messages setMessages append
                      isManual anc w) c w'
            = catch_run (Settled (with_heap h1 w') (Throws err))
                (fun err =>
                   sync (console_error "Error during compaction:" err ;;
                         setCompactionError (Some (errorText err)) ;;
                         let! t1 := Date_now in
                         let! t2 := Date_now in
                         let! marker := alloc (OMessage (errorMarker t1 t2)) in
                         let! withMarker := array_spread_with messages marker in
                         call setMessages [withMarker] ;;
                         setIsCompacting false)))
    as (h1 & Hsub1 & ->).
  { destruct c as [summaryResponse|e]; simpl in Hfail.
    - destruct (conversion_loop toFrontend (Response.messages summaryResponse)
                  0%nat w') as (h1 & Hsub1 & Hloop).
      destruct (conversions toFrontend 0 (Response.messages summaryResponse))
        as [ms|e]; [done|].
      injection Hfail as ->. exists h1. split; [done|].
      unfold performCompaction, resume. simpl. unfold sync, bindS.
      by rewrite Hloop.
    - injection Hfail as ->. exists (heap w'). split; [done|].
      by rewrite with_heap_id. }
  simpl. unfold sync, bindS. simpl.
  set (marker := fresh (dom h1)).
  set (hM := <[marker := OMessage (errorMarker (now w') (now w'))]> h1).
  assert (Harr' : hM !! messages = Some (OArray elems)).
  { apply (lookup_weaken (heap w')); [done|].
    etrans; [exact Hsub1|apply alloc_extends]. }
  rewrite (array_spread_with_run _ _ _ elems); [|done]. simpl.
  fold hM. set (withMarker := fresh (dom hM)).
  rewrite call_run. simpl.
  eexists _, marker, withMarker. split; [reflexivity|]. simpl.
  assert (HsubM : h1 ⊆ hM) by apply alloc_extends.
  assert (HsubW : hM ⊆ <[withMarker := OArray (elems ++ [marker])]> hM)
    by apply alloc_extends.
  split; [by do 2 (etrans; [eassumption|])|].
  split; [eapply unused_weaken; [exact Hsub1|apply fresh_unused]|].
  split.
  { eapply unused_weaken; [|apply (fresh_unused hM)]. by etrans. }
  split.
  { apply (lookup_weaken hM); [|done]. apply lookup_insert_eq. }
  split; [apply lookup_insert_eq|].
  split; [by rewrite <- app_assoc|].
  done.
Qed.

(** [handleManualCompaction] is [performCompaction] started after the
    optional call of [clearAlerts]. *)
Lemma handleManualCompaction_run messages setMessages append clearAlerts anc w :
  handleManualCompaction toFrontend messages setMessages append clearAlerts anc w
  = performCompaction toFrontend messages setMessages
      (match append with Some append => append | None => ArrowNoop end)
      true anc
      (with_trace (trace w ++ match clearAlerts with
                              | Some clearAlerts => called clearAlerts []
                              | None => []
                              end) w).
Proof.
  unfold handleManualCompaction.
  destruct clearAlerts as [clearAlerts|].
  - simpl. unfold sync at 1. by rewrite call_run.
  - by rewrite app_nil_r, with_trace_id.
Qed.

(** ** The conversions, on values *)

Lemma conversions_lookup (xs : list ApiMessage) :
  forall index ms,
  conversions toFrontend index xs = Normal ms ->
  length ms = length xs /\
  forall (j : nat) a, xs !! j = Some a ->
    exists m, ms !! j = Some m /\
              conversionAt toFrontend (index + j) a = Normal m.
Proof.
  induction xs as [|x xs IH]; intros index ms H; simpl in H.
  - injection H as <-. split; [done|]. by intros j a.
  - destruct (conversionAt toFrontend index x) as [m|e] eqn:Hx; [|done].
    destruct (conversions toFrontend (S index) xs) as [ms'|e] eqn:Hxs; [|done].
    injection H as <-. destruct (IH _ _ Hxs) as [Hlen Hget].
    split; [simpl; by rewrite Hlen|].
    intros [|j] a Ha; simpl in Ha.
    + injection Ha as <-. exists m. by rewrite Nat.add_0_r.
    + destruct (Hget j a Ha) as (m' & Hm' & Hc). exists m'. split; [done|].
      by rewrite Nat.add_succ_r.
Qed.

Lemma conversionAt_later index a :
  index <> 0%nat -> conversionAt toFrontend index a = toFrontend a false true.
Proof.
  intros H. unfold conversionAt.
  destruct index as [|[|index]]; done.
Qed.

Lemma called_has_argument (f : Fn) (x : loc) (g : string) :
  Called g [] ∉ called f [x].
Proof.
  destruct f; simpl; [|apply not_elem_of_nil].
  by intros [=]%list_elem_of_singleton.
Qed.

(** The two exits together: a resumed [performCompaction] fulfils with
    [isCompacting] false, writes no object of the store it is resumed in,
    and only adds calls with one argument to the trace. *)
Lemma performCompaction_exits messages setMessages append isManual anc w c w' olds :
  messagesAt (heap w') messages = Some olds ->
  exists w2 added,
    resume (performCompaction toFrontend messages setMessages append isManual anc w)
           c w'
    = Settled w2 (Normal tt) /\
    isCompacting w2 = false /\
    heap w' ⊆ heap w2 /\
    trace w2 = trace w' ++ added /\
    (forall f, Called f [] ∉ added) /\
    (failureOf toFrontend c = None -> compactionError w2 = compactionError w').
Proof.
  intros Holds.
  destruct (failureOf toFrontend c) as [err|] eqn:Hfail.
  - pose proof Holds as (elems & Harr & _)%messagesAt_elems.
    destruct (performCompaction_recovers messages setMessages append
                isManual anc w c w' err elems Hfail Harr)
      as (w2 & marker & withMarker & Hrun & Hsub & _ & _ & _ & _ & Htrace
          & _ & Hbusy & _).
    exists w2, ([ConsoleError "Error during compaction:" err]
                ++ called setMessages [withMarker]).
    repeat split; try done.
    intros f. apply not_elem_of_app. split; [|apply called_has_argument].
    by intros [=]%list_elem_of_singleton.
  - destruct c as [summaryResponse|e]; [|done]. simpl in Hfail.
    destruct (conversions toFrontend 0 (Response.messages summaryResponse))
      as [ms|e] eqn:Hconv; [|done].
    destruct (performCompaction_fulfils messages setMessages append
                isManual anc w summaryResponse w' ms Hconv)
      as (w2 & L & ls & ancEvents & Hrun & Hsub & _ & _ & _ & _ & Htrace
          & Hancs & _ & Hbusy & Herr & _).
    { by intros _. }
    exists w2, (ancEvents ++ called setMessages [L]).
    repeat split; try done.
    intros f. apply not_elem_of_app. split; [|apply called_has_argument].
    destruct anc as [g|].
    + destruct Hancs as (A & _ & _ & -> & _). apply called_has_argument.
    + subst ancEvents. apply not_elem_of_nil.
Qed.

(** The success exit when no other timer is pending: the only timer
    afterwards is the one for the message at index 2, if there is one. *)
Lemma performCompaction_schedules messages setMessages append isManual anc w
    summaryResponse w' ms :
  conversions toFrontend 0 (Response.messages summaryResponse) = Normal ms ->
  is_Some (messagesAt (heap w') messages) ->
  timers w' = [] ->
  exists w2 convertedMessages ls ancEvents,
    resume (performCompaction toFrontend messages setMessages append isManual anc w)
           (Normal summaryResponse) w'
    = Settled w2 (Normal tt) /\
    trace w2 = trace w' ++ ancEvents ++ called setMessages [convertedMessages] /\
    match anc with
    | Some f => exists ancestorMessages, ancEvents = called f [ancestorMessages]
    | None => ancEvents = []
    end /\
    elementsAt (heap w2) convertedMessages = Some ls /\
    messagesAt (heap w2) convertedMessages = Some ms /\
    length ls = length (Response.messages summaryResponse) /\
    length ms = length (Response.messages summaryResponse) /\
    (forall l, ls !! 2%nat = Some l -> messageAt (heap w2) l = ms !! 2%nat) /\
    timers w2 =
      match ls !! 2%nat with
      | Some continuationMessage =>
          [ {| due := now w' + 100; callee := append;
               arg := continuationMessage |} ]
      | None => []
      end /\
    compactionError w2 = compactionError w' /\
    now w2 = now w'.
Proof.
  intros Hconv Hmsgs Hidle.
  destruct (performCompaction_fulfils messages setMessages append
              isManual anc w summaryResponse w' ms Hconv)
    as (w2 & L & ls & ancEvents & Hrun & _ & _ & HL & Hms & _ & Htrace
        & Hancs & Htimers & _ & Herr & Hnow).
  { by intros _. }
  destruct (conversions_lookup _ _ _ Hconv) as [Hlen _].
  exists w2, L, ls, ancEvents.
  split; [done|]. split; [done|].
  split.
  { destruct anc as [f|]; [|done].
    destruct Hancs as (A & _ & _ & -> & _). by exists A. }
  split; [unfold elementsAt; by rewrite HL|].
  split; [apply messagesAt_elems; by exists ls|].
  split; [by rewrite (Forall2_length _ _ _ Hms)|].
  split; [done|].
  split.
  { intros l Hl.
    destruct (Forall2_lookup_l _ _ _ _ _ Hms Hl) as (m & -> & Hm). done. }
  split; [|done].
  rewrite Htimers, Hidle. by destruct (ls !! 2%nat).
Qed.

End Runs.

(** ** The runs when callbacks may throw *)

Section ThrowingRuns.

Context {ApiMessage : Type}.
Variable toFrontend : ApiMessage -> bool -> bool -> Completion Message.

(** With callbacks that return, [Throwing] is the model above. *)
Lemma Throwing_performCompaction_returning messages setMessages append isManual
    anc w :
  Throwing.performCompaction toFrontend messages (Returning setMessages) append
    isManual (Returning <$> anc) w
  = performCompaction toFrontend messages setMessages append isManual anc w.
Proof. by destruct anc. Qed.

Lemma Throwing_handleManualCompaction_run messages setMessages append clearAlerts
    anc w :
  Throwing.handleManualCompaction toFrontend messages setMessages append
    (Returning <$> clearAlerts) anc w
  = Throwing.performCompaction toFrontend messages setMessages
      (match append with Some append => append | None => ArrowNoop end)
      true anc
      (with_trace (trace w ++ match clearAlerts with
                              | Some clearAlerts => called clearAlerts []
                              | None => []
                              end) w).
Proof.
  unfold Throwing.handleManualCompaction.
  destruct clearAlerts as [clearAlerts|].
  - simpl. unfold sync at 1. by rewrite call_run.
  - simpl. by rewrite app_nil_r, with_trace_id.
Qed.

Lemma Throwing_handleManualCompaction_returning messages setMessages append
    clearAlerts anc w :
  Throwing.handleManualCompaction toFrontend messages (Returning setMessages)
    append (Returning <$> clearAlerts) (Returning <$> anc) w
  = handleManualCompaction toFrontend messages setMessages append clearAlerts
      anc w.
Proof. by destruct clearAlerts, anc. Qed.

(** A setter for the ancestors that throws is caught: the catch block
    runs, and with a [setMessages] that returns the run still fulfils,
    with no timer set. *)
Lemma Throwing_ancestors_raise messages setMessages append isManual name e w c w'
    olds :
  messagesAt (heap w') messages = Some olds ->
  exists w2,
    resume (Throwing.performCompaction toFrontend messages
              (Returning setMessages) append isManual
              (Some (Raising name e)) w) c w'
    = Settled w2 (Normal tt) /\
    timers w2 = timers w' /\
    isCompacting w2 = false /\
    heap w' ⊆ heap w2.
Proof.
  intros (elems & Harr & Holds)%messagesAt_elems.
  assert (exists wh err, heap w' ⊆ heap wh /\ timers wh = timers w' /\
            resume (Throwing.performCompaction toFrontend messages
                      (Returning setMessages) append isManual
                      (Some (Raising name e)) w) c w'
            = catch_run (Settled wh (Throws err))
                (fun err =>
                   sync (console_error "Error during compaction:" err ;;
                         setCompactionError (Some (errorText err)) ;;
                         let! t1 := Date_now in
                         let! t2 := Date_now in
                         let! marker := alloc (OMessage (errorMarker t1 t2)) in
                         let! withMarker := array_spread_with messages marker in
                         call setMessages [withMarker] ;;
                         setIsCompacting false)))
    as (wh & err & Hsub & Htimers & ->).
  { destruct c as [summaryResponse|err].
    - destruct (conversion_loop toFrontend (Response.messages summaryResponse)
                  0%nat w') as (h1 & Hsub1 & Hloop).
      destruct (conversions toFrontend 0 (Response.messages summaryResponse))
        as [ms|err].
      + destruct Hloop as (ls & Hrun & _ & _).
        destruct (ancestor_map_run messages
                    (with_heap (<[fresh (dom h1) := OArray ls]> h1) w') olds)
          as (h2 & A & copies & HrunA & Hsub2 & _).
        { apply messagesAt_elems. exists elems. simpl.
          assert (Hs : heap w' ⊆ <[fresh (dom h1) := OArray ls]> h1)
            by (etrans; [exact Hsub1|apply alloc_extends]).
          split; [by apply (lookup_weaken (heap w'))|].
          by apply (Forall2_messageAt_weaken (heap w')). }
        simpl in Hsub2.
        exists (with_trace (trace w' ++ [Called name [A]]) (with_heap h2 w')), e.
        split; [simpl; etrans; [exact Hsub1|]; etrans; [apply alloc_extends|done]|].
        split; [done|].
        unfold Throwing.performCompaction, resume. simpl. unfold sync, bindS.
        rewrite Hrun. unfold alloc at 1. simpl.
        by rewrite with_heap_twice, HrunA.
      + exists (with_heap h1 w'), err. split; [done|]. split; [done|].
        unfold Throwing.performCompaction, resume. simpl. unfold sync, bindS.
        by rewrite Hloop.
    - exists w', err. by repeat split. }
  assert (Harr' : heap wh !! messages = Some (OArray elems))
    by (by apply (lookup_weaken (heap w'))).
  simpl. unfold sync, bindS. simpl.
  rewrite (array_spread_with_run _ _ _ elems);
    [|simpl; apply (lookup_weaken (heap wh)); [done|apply alloc_extends]].
  simpl. rewrite call_run. simpl.
  eexists. split; [reflexivity|]. simpl.
  split; [done|]. split; [done|].
  etrans; [exact Hsub|]. etrans; apply alloc_extends.
Qed.

End ThrowingRuns.

(** ** Sample runs *)

(** An automatic compaction that succeeds: the ancestors are stored, the
    three converted messages installed, and 100 time units later the
    continuation is appended. *)
Example sample_run_success :
  let start := handleAutoCompaction Sample.toFrontend Sample.messages
                 (Callback "setMessages") (Callback "append")
                 (Some (Callback "setAncestorMessages")) Sample.world in
  let w2 := world_of (resume start (Normal Sample.summary) (world_of start)) in
  trace (world_of start) = [BackendRequest 4%positive "summarize"] /\
  trace w2 = [BackendRequest 4%positive "summarize";
              Called "setAncestorMessages" [12%positive];
              Called "setMessages" [8%positive]] /\
  elementsAt (heap w2) 8%positive = Some [5%positive; 6%positive; 7%positive] /\
  timers w2 = [ {| due := 1700000003223; callee := Callback "append";
                   arg := 7%positive |} ] /\
  trace (elapse 100 w2) = trace w2 ++ [Called "append" [7%positive]] /\
  isCompacting w2 = false /\
  compactionError w2 = None.
Proof. vm_compute. by repeat split. Qed.

(** A rejection with a value that is not an [Error]: the transcript is
    kept, the marker appended, and the fallback text stored. *)
Example sample_run_rejected :
  let start := handleAutoCompaction Sample.toFrontend Sample.messages
                 (Callback "setMessages") (Callback "append")
                 (Some (Callback "setAncestorMessages")) Sample.world in
  let w2 := world_of (resume start (Throws (OtherValue "503")) (world_of start)) in
  trace w2 = [BackendRequest 4%positive "summarize";
              ConsoleError "Error during compaction:" (OtherValue "503");
              Called "setMessages" [6%positive]] /\
  elementsAt (heap w2) 6%positive
  = Some [1%positive; 2%positive; 3%positive; 5%positive] /\
  messageAt (heap w2) 5%positive
  = Some (errorMarker 1700000003123 1700000003123) /\
  id (errorMarker 1700000003123 1700000003123) = "compaction-error-1700000003123" /\
  created (errorMarker 1700000003123 1700000003123) = 1700000003 /\
  timers w2 = [] /\
  isCompacting w2 = false /\
  compactionError w2 = Some "Unknown error during compaction".
Proof. vm_compute. by repeat split. Qed.

Lemma Sample_toFrontend_flags (a : string) (d s : bool) (m : Message) :
  Sample.toFrontend a d s = Normal m -> display m = d /\ sendToLLM m = s.
Proof.
  unfold Sample.toFrontend. destruct (String.eqb a "malformed"); [done|].
  by intros [= <-].
Qed.

(** * The claims *)

Section Claims.

Context {ApiMessage : Type}.
Variable toFrontend : ApiMessage -> bool -> bool -> Completion Message.

(** C1: when the summarization request resolves and every conversion
    succeeds, [performCompaction] fulfils, and what it added to the trace
    ends with one call of [setMessages] on a new array that holds exactly
    the converted messages, one per message of the response; the message
    at index 0 has (display, sendToLLM) = (true, false), those at indices
    1 and 2 have (false, true). *)
Theorem C1_success_installs_converted
    (messages : loc) (setMessages : string) (append : Fn) (isManual : bool)
    (setAncestorMessages : option Fn) (w w' : World)
    (summaryResponse : Response.t ApiMessage) (ms : list Message)
    (Hcontract : applies_flags toFrontend)
    (Hconv : conversions toFrontend 0 (Response.messages summaryResponse) = Normal ms)
    (Hmsgs : is_Some (messagesAt (heap w') messages)) :
  exists w2 convertedMessages ancEvents,
    resume (performCompaction toFrontend messages (Callback setMessages) append
              isManual setAncestorMessages w)
           (Normal summaryResponse) w'
    = Settled w2 (Normal tt) /\
    trace w2 = trace w' ++ ancEvents ++ [Called setMessages [convertedMessages]] /\
    match setAncestorMessages with
    | Some f => exists ancestorMessages, ancEvents = called f [ancestorMessages]
    | None => ancEvents = []
    end /\
    heap w' !! convertedMessages = None /\
    messagesAt (heap w2) convertedMessages = Some ms /\
    length ms = length (Response.messages summaryResponse) /\
    (forall (i : nat) a, Response.messages summaryResponse !! i = Some a ->
       exists m, ms !! i = Some m /\
                 toFrontend a (bool_decide (i = 0%nat)) (bool_decide (i <> 0%nat))
                 = Normal m) /\
    (forall m, ms !! 0%nat = Some m -> display m = true /\ sendToLLM m = false) /\
    (forall m, ms !! 1%nat = Some m -> display m = false /\ sendToLLM m = true) /\
    (forall m, ms !! 2%nat = Some m -> display m = false /\ sendToLLM m = true).
Proof.
  destruct (performCompaction_fulfils toFrontend messages (Callback setMessages)
              append isManual setAncestorMessages w summaryResponse w' ms Hconv)
    as (w2 & L & ls & ancEvents & Hrun & Hsub & HL' & HL & Hms & _ & Htrace
        & Hancs & _).
  { by intros _. }
  destruct (conversions_lookup toFrontend _ _ _ Hconv) as [Hlen Hget].
  assert (Hpoint : forall (i : nat) a,
             Response.messages summaryResponse !! i = Some a ->
             exists m, ms !! i = Some m /\
               toFrontend a (bool_decide (i = 0%nat)) (bool_decide (i <> 0%nat))
               = Normal m).
  { intros i a Ha. destruct (Hget i a Ha) as (m & Hm & Hc).
    exists m. split; [done|]. simpl in Hc.
    destruct i as [|i]; [done|].
    by rewrite conversionAt_later in Hc. }
  assert (Hflag : forall (i : nat) m, ms !! i = Some m ->
             display m = bool_decide (i = 0%nat) /\
             sendToLLM m = bool_decide (i <> 0%nat)).
  { intros i m Hm.
    destruct (Response.messages summaryResponse !! i) as [a|] eqn:Ha.
    - destruct (Hpoint i a Ha) as (m' & Hm' & Hc).
      rewrite Hm in Hm'. injection Hm' as <-. by apply Hcontract in Hc.
    - apply lookup_ge_None in Ha. apply lookup_lt_Some in Hm. lia. }
  exists w2, L, ancEvents.
  split; [done|]. split; [done|].
  split.
  { destruct setAncestorMessages as [f|]; [|done].
    destruct Hancs as (A & _ & _ & -> & _). by exists A. }
  split; [done|].
  split; [apply messagesAt_elems; by exists ls|].
  split; [done|]. split; [done|].
  split; [|split]; intros m0 Hm0; exact (Hflag _ _ Hm0).
Qed.


(** C2 (as amended): when the summarization request rejects, or a
    conversion throws, [performCompaction] still fulfils; [setMessages]
    is called once, on a new array holding the elements of the input
    array followed by one new message: role "assistant", a single content
    block of kind summarizationRequested, display = true, sendToLLM =
    false.  The input transcript is unchanged, [isCompacting] is false,
    and [compactionError] holds the text of the failure: the message of
    the thrown [Error], else the fixed fallback; that text is non-empty
    unless the thrown [Error] has an empty message. *)
Theorem C2_failure_appends_marker
    (messages : loc) (setMessages : string) (append : Fn) (isManual : bool)
    (setAncestorMessages : option Fn) (w w' : World)
    (c : Completion (Response.t ApiMessage)) (err : Thrown)
    (olds : list Message)
    (Hfail : failureOf toFrontend c = Some err)
    (Holds : messagesAt (heap w') messages = Some olds) :
  exists w2 withMarker marker elems em,
    resume (performCompaction toFrontend messages (Callback setMessages) append
              isManual setAncestorMessages w) c w'
    = Settled w2 (Normal tt) /\
    trace w2 = trace w' ++ [ConsoleError "Error during compaction:" err;
                            Called setMessages [withMarker]] /\
    elementsAt (heap w') messages = Some elems /\
    elementsAt (heap w2) withMarker = Some (elems ++ [marker]) /\
    heap w' !! marker = None /\
    messageAt (heap w2) marker = Some em /\
    messagesAt (heap w2) withMarker = Some (olds ++ [em]) /\
    role em = assistant /\
    (exists block, content em = [block] /\ type block = "summarizationRequested") /\
    display em = true /\
    sendToLLM em = false /\
    messagesAt (heap w2) messages = Some olds /\
    isCompacting w2 = false /\
    compactionError w2 = Some (errorText err) /\
    (err <> ErrorObject "" -> errorText err <> "").
Proof.
  pose proof Holds as (elems & Harr & Hall)%messagesAt_elems.
  destruct (performCompaction_recovers toFrontend messages (Callback setMessages)
              append isManual setAncestorMessages w c w' err elems Hfail Harr)
    as (w2 & marker & withMarker & Hrun & Hsub & Hmk' & _ & Hmk & Hwith
        & Htrace & _ & Hbusy & Herr & _).
  exists w2, withMarker, marker, elems, (errorMarker (now w') (now w')).
  assert (HmkAt : messageAt (heap w2) marker
                  = Some (errorMarker (now w') (now w'))).
  { unfold messageAt. by rewrite Hmk. }
  split; [done|]. split; [done|].
  split; [unfold elementsAt; by rewrite Harr|].
  split; [unfold elementsAt; by rewrite Hwith|].
  split; [done|]. split; [done|].
  split.
  { apply messagesAt_elems. exists (elems ++ [marker]). split; [done|].
    apply Forall2_app; [by apply (Forall2_messageAt_weaken (heap w'))|].
    by constructor. }
  split; [done|].
  split; [by eexists|].
  split; [done|]. split; [done|].
  split; [by apply (messagesAt_weaken (heap w'))|].
  split; [done|]. split; [done|].
  intros Hne. destruct err as [message|repr]; simpl; [|done].
  intros ->. by apply Hne.
Qed.

(** C3: when a setter for the ancestors is supplied and the compaction
    succeeds, the setter is called, before [setMessages], on a new array
    with one entry per message of the transcript (N entries for N
    messages), every entry with (display, sendToLLM) = (true, false)
    whatever the flags of the original, and otherwise equal to it. *)
Theorem C3_ancestor_snapshot
    (messages : loc) (setMessages : Fn) (append : Fn) (isManual : bool)
    (setAncestorMessages : string) (w w' : World)
    (summaryResponse : Response.t ApiMessage) (ms olds : list Message)
    (Hconv : conversions toFrontend 0 (Response.messages summaryResponse) = Normal ms)
    (Holds : messagesAt (heap w') messages = Some olds) :
  exists w2 ancestorMessages convertedMessages snapshot,
    resume (performCompaction toFrontend messages setMessages append isManual
              (Some (Callback setAncestorMessages)) w)
           (Normal summaryResponse) w'
    = Settled w2 (Normal tt) /\
    trace w2 = trace w' ++ [Called setAncestorMessages [ancestorMessages]]
                        ++ called setMessages [convertedMessages] /\
    messagesAt (heap w2) ancestorMessages = Some snapshot /\
    length snapshot = length olds /\
    Forall (fun m => display m = true /\ sendToLLM m = false) snapshot /\
    snapshot = map asAncestor olds.
Proof.
  destruct (performCompaction_fulfils toFrontend messages setMessages append
              isManual (Some (Callback setAncestorMessages)) w summaryResponse
              w' ms Hconv)
    as (w2 & L & ls & ancEvents & Hrun & _ & _ & _ & _ & _ & Htrace & Hancs & _).
  { by intros _. }
  destruct Hancs as (A & copies & olds' & -> & Holds' & _ & HA & Hcopies & _).
  rewrite Holds in Holds'. injection Holds' as <-.
  exists w2, A, L, (map asAncestor olds).
  split; [done|]. split; [done|].
  split; [apply messagesAt_elems; by exists copies|].
  split; [by rewrite length_map|].
  split; [|done].
  apply Forall_forall. intros m (old & -> & _)%list_elem_of_fmap. done.
Qed.


(** C4: on a message object, [hasCompactionMarker] returns true exactly
    when some content block of the message has kind
    summarizationRequested, so false on an empty content sequence and
    true as soon as one block of several matches; it leaves the world as
    it found it. *)
Theorem C4_hasCompactionMarker_iff (w : World) (message : loc) (m : Message)
    (Hm : messageAt (heap w) message = Some m) :
  exists b,
    hasCompactionMarker message w = (w, Normal b) /\
    (b = true <->
     exists block, block ∈ content m /\ type block = "summarizationRequested") /\
    (content m = [] -> b = false) /\
    (forall before block after,
       content m = before ++ block :: after ->
       type block = "summarizationRequested" -> b = true).
Proof.
  exists (existsb (fun block => String.eqb (type block) "summarizationRequested")
                  (content m)).
  assert (Hiff : existsb (fun block => String.eqb (type block) "summarizationRequested")
                         (content m) = true <->
                 exists block, block ∈ content m /\
                               type block = "summarizationRequested").
  { rewrite existsb_exists. split.
    - intros (block & Hin & Heq). exists block.
      split; [by apply list_elem_of_In|]. by apply String.eqb_eq.
    - intros (block & Hin & Heq). exists block.
      split; [by apply list_elem_of_In|]. by apply String.eqb_eq. }
  split.
  { unfold hasCompactionMarker. simpl. unfold bindS, readMessage.
    unfold messageAt in Hm.
    destruct (heap w !! message) as [[m'|]|]; try done. by injection Hm as ->. }
  split; [done|].
  split; [by intros ->|].
  intros before block after Hc Ht. apply Hiff. exists block. split; [|done].
  rewrite Hc. apply elem_of_app. right. by left.
Qed.

(** C5: whatever state an earlier attempt left, both entry points reach
    the [await] with [isCompacting] true and [compactionError] absent;
    and on the success exit as on the failure exit they fulfil with
    [isCompacting] false. *)
Theorem C5_state_reset_and_release
    (messages : loc) (setMessages append : Fn)
    (optAppend clearAlerts setAncestorMessages : option Fn)
    (w w' : World) (c : Completion (Response.t ApiMessage)) (olds : list Message)
    (Holds : messagesAt (heap w') messages = Some olds) :
  let auto := handleAutoCompaction toFrontend messages setMessages append
                setAncestorMessages w in
  let manual := handleManualCompaction toFrontend messages setMessages optAppend
                  clearAlerts setAncestorMessages w in
  (is_pending auto = true /\
   isCompacting (world_of auto) = true /\
   compactionError (world_of auto) = None) /\
  (is_pending manual = true /\
   isCompacting (world_of manual) = true /\
   compactionError (world_of manual) = None) /\
  (exists w2, resume auto c w' = Settled w2 (Normal tt) /\ isCompacting w2 = false) /\
  (exists w2, resume manual c w' = Settled w2 (Normal tt) /\ isCompacting w2 = false).
Proof.
  intros auto manual. subst auto manual.
  rewrite handleManualCompaction_run. unfold handleAutoCompaction.
  split; [done|]. split; [done|].
  split.
  - destruct (performCompaction_exits toFrontend messages setMessages append false
                setAncestorMessages w c w' olds Holds)
      as (w2 & added & Hrun & Hbusy & _).
    by exists w2.
  - destruct (performCompaction_exits toFrontend messages setMessages
                (match optAppend with Some a => a | None => ArrowNoop end) true
                setAncestorMessages
                (with_trace (trace w ++ match clearAlerts with
                                        | Some f => called f []
                                        | None => []
                                        end) w)
                c w' olds Holds)
      as (w2 & added & Hrun & Hbusy & _).
    by exists w2.
Qed.

(** C6: on a successful compaction, resumed while no other timer is
    pending, nothing is appended synchronously.  With at least 3 messages
    in the response, one timer is set, due 100 time units later: before
    that nothing happens, and once it has fired [append] has been called
    once, on the converted message at index 2.  With fewer than 3
    messages no timer is set, [append] is never called, and the run
    fulfils without error. *)
Theorem C6_continuation_after_delay
    (messages : loc) (setMessages : Fn) (append : string) (isManual : bool)
    (setAncestorMessages : option Fn) (w w' : World)
    (summaryResponse : Response.t ApiMessage) (ms : list Message)
    (Hconv : conversions toFrontend 0 (Response.messages summaryResponse) = Normal ms)
    (Hmsgs : is_Some (messagesAt (heap w') messages))
    (Hidle : timers w' = []) :
  exists w2 convertedMessages ls ancEvents,
    resume (performCompaction toFrontend messages setMessages (Callback append)
              isManual setAncestorMessages w)
           (Normal summaryResponse) w'
    = Settled w2 (Normal tt) /\
    trace w2 = trace w' ++ ancEvents ++ called setMessages [convertedMessages] /\
    match setAncestorMessages with
    | Some f => exists ancestorMessages, ancEvents = called f [ancestorMessages]
    | None => ancEvents = []
    end /\
    elementsAt (heap w2) convertedMessages = Some ls /\
    messagesAt (heap w2) convertedMessages = Some ms /\
    compactionError w2 = compactionError w' /\
    match ls !! 2%nat with
    | Some continuationMessage =>
        (3 <= length (Response.messages summaryResponse))%nat /\
        messageAt (heap w2) continuationMessage = ms !! 2%nat /\
        timers w2 = [ {| due := now w' + 100; callee := Callback append;
                         arg := continuationMessage |} ] /\
        (forall d, d < 100 -> trace (elapse d w2) = trace w2) /\
        (forall d, 100 <= d ->
           trace (elapse d w2) = trace w2 ++ [Called append [continuationMessage]])
    | None =>
        (length (Response.messages summaryResponse) < 3)%nat /\
        timers w2 = [] /\
        (forall d, trace (elapse d w2) = trace w2)
    end.
Proof.
  destruct (performCompaction_schedules toFrontend messages setMessages (Callback append)
              isManual setAncestorMessages w summaryResponse w' ms
              Hconv Hmsgs Hidle)
    as (w2 & L & ls & ancEvents & Hrun & Htrace & Hancs & HL & Hms & Hlen & _
        & Hcont & Htimers & Herr & Hnow).
  exists w2, L, ls, ancEvents.
  do 6 (split; [done|]).
  destruct (ls !! 2%nat) as [continuationMessage|] eqn:Hget.
  - split; [apply lookup_lt_Some in Hget; lia|].
    split; [by apply Hcont|]. split; [done|].
    split; intros d Hd; rewrite (elapse_single d w2 _ Htimers); simpl;
      rewrite Hnow.
    + destruct (now w' + 100 <=? now w' + d) eqn:E; [lia|by rewrite app_nil_r].
    + destruct (now w' + 100 <=? now w' + d) eqn:E; [done|lia].
  - split; [apply lookup_ge_None in Hget; lia|].
    split; [done|]. intros d. by rewrite (elapse_idle d w2 Htimers).
Qed.

(** C7: [handleManualCompaction] with [clearAlerts] supplied calls it
    once, with no argument, before it sends the summarization request and
    waits; once resumed, it adds no further call without argument. *)
Theorem C7_clearAlerts_once_before_request
    (messages : loc) (setMessages : Fn) (append : option Fn) (clearAlerts : string)
    (setAncestorMessages : option Fn)
    (w w' : World) (c : Completion (Response.t ApiMessage)) (olds : list Message)
    (Holds : messagesAt (heap w') messages = Some olds) :
  let run := handleManualCompaction toFrontend messages setMessages append
               (Some (Callback clearAlerts)) setAncestorMessages w in
  is_pending run = true /\
  trace (world_of run)
  = trace w ++ [Called clearAlerts []; BackendRequest messages "summarize"] /\
  exists w2 added,
    resume run c w' = Settled w2 (Normal tt) /\
    trace w2 = trace w' ++ added /\
    forall f, Called f [] ∉ added.
Proof.
  intros run. subst run. rewrite handleManualCompaction_run.
  split; [done|].
  split; [simpl; by rewrite <- app_assoc|].
  destruct (performCompaction_exits toFrontend messages setMessages
              (match append with Some a => a | None => ArrowNoop end) true
              setAncestorMessages
              (with_trace (trace w ++ called (Callback clearAlerts) []) w)
              c w' olds Holds)
    as (w2 & added & Hrun & _ & _ & Htrace & Hnone & _).
  by exists w2, added.
Qed.

(** Without [append] and with callbacks that return: the run fulfils on
    either exit, and the timer of a continuation has the no-op arrow
    function as callee. *)
Lemma manual_without_append_returning
    (messages : loc) (setMessages : Fn) (clearAlerts setAncestorMessages : option Fn)
    (w w' : World) (c : Completion (Response.t ApiMessage)) (olds : list Message)
    (Holds : messagesAt (heap w') messages = Some olds)
    (Hidle : timers w' = []) :
  let run := handleManualCompaction toFrontend messages setMessages None
               clearAlerts setAncestorMessages w in
  exists w2,
    resume run c w' = Settled w2 (Normal tt) /\
    (forall d, trace (elapse d w2) = trace w2) /\
    (forall summaryResponse ms,
       c = Normal summaryResponse ->
       conversions toFrontend 0 (Response.messages summaryResponse) = Normal ms ->
       (3 <= length (Response.messages summaryResponse))%nat ->
       exists convertedMessages ls continuationMessage m,
         elementsAt (heap w2) convertedMessages = Some ls /\
         ls !! 2%nat = Some continuationMessage /\
         messageAt (heap w2) continuationMessage = Some m /\
         ms !! 2%nat = Some m /\
         timers w2 = [ {| due := now w' + 100; callee := ArrowNoop;
                          arg := continuationMessage |} ]).
Proof.
  intros run. subst run. rewrite handleManualCompaction_run.
  set (w1 := with_trace _ w).
  destruct (failureOf toFrontend c) as [err|] eqn:Hfail.
  - pose proof Holds as (elems & Harr & _)%messagesAt_elems.
    destruct (performCompaction_recovers toFrontend messages setMessages
                ArrowNoop true setAncestorMessages w1 c w' err elems Hfail Harr)
      as (w2 & marker & withMarker & Hrun & _ & _ & _ & _ & _ & _ & Htimers & _).
    exists w2. split; [done|]. rewrite Hidle in Htimers.
    split; [intros d; by rewrite (elapse_idle d w2 Htimers)|].
    intros summaryResponse ms -> Hconv _. simpl in Hfail. by rewrite Hconv in Hfail.
  - destruct c as [summaryResponse|e]; [|done]. simpl in Hfail.
    destruct (conversions toFrontend 0 (Response.messages summaryResponse))
      as [ms|e] eqn:Hconv; [|done].
    destruct (performCompaction_schedules toFrontend messages setMessages ArrowNoop true
                setAncestorMessages w1 summaryResponse w' ms Hconv)
      as (w2 & L & ls & ancEvents & Hrun & _ & _ & HL & _ & Hlen & Hlen'
          & Hcont & Htimers & _); [by eexists|done|].
    exists w2. split; [done|].
    split.
    + intros d. destruct (ls !! 2%nat) as [l|].
      * rewrite (elapse_single d w2 _ Htimers). simpl.
        destruct (now w' + 100 <=? now w2 + d); by rewrite app_nil_r.
      * by rewrite (elapse_idle d w2 Htimers).
    + intros summaryResponse' ms' [= <-] Hconv' Hlong.
      rewrite Hconv in Hconv'. injection Hconv' as <-.
      destruct (ls !! 2%nat) as [l|] eqn:Hget;
        [|apply lookup_ge_None in Hget; lia].
      destruct (ms !! 2%nat) as [m|] eqn:Hm;
        [|apply lookup_ge_None in Hm; lia].
      exists L, ls, l, m. split; [done|]. split; [done|].
      split; [by apply Hcont|]. done.
Qed.

(** C8 (as amended): when [setMessages] and, if supplied, [clearAlerts]
    return normally, [handleManualCompaction] called without [append]
    fulfils (it does not throw or reject) on either exit, also when the
    setter for the ancestors throws.  With no other timer pending,
    nothing is added to the trace however much time passes, so nothing is
    submitted.  When the response has a message at index 2 and the try
    block runs to its end, that message is converted and its timer is
    set, with the no-op arrow function as callee. *)
Theorem C8_manual_without_append_fulfils
    (messages : loc) (setMessages : Callable)
    (clearAlerts setAncestorMessages : option Callable)
    (w w' : World) (c : Completion (Response.t ApiMessage)) (olds : list Message)
    (HsetMessages : returnsNormally setMessages = true)
    (HclearAlerts : forall f, clearAlerts = Some f -> returnsNormally f = true)
    (Holds : messagesAt (heap w') messages = Some olds)
    (Hidle : timers w' = []) :
  let run := Throwing.handleManualCompaction toFrontend messages setMessages None
               clearAlerts setAncestorMessages w in
  exists w2,
    resume run c w' = Settled w2 (Normal tt) /\
    (forall d, trace (elapse d w2) = trace w2) /\
    (forall summaryResponse ms,
       c = Normal summaryResponse ->
       conversions toFrontend 0 (Response.messages summaryResponse) = Normal ms ->
       (3 <= length (Response.messages summaryResponse))%nat ->
       (forall f, setAncestorMessages = Some f -> returnsNormally f = true) ->
       exists convertedMessages ls continuationMessage m,
         elementsAt (heap w2) convertedMessages = Some ls /\
         ls !! 2%nat = Some continuationMessage /\
         messageAt (heap w2) continuationMessage = Some m /\
         ms !! 2%nat = Some m /\
         timers w2 = [ {| due := now w' + 100; callee := ArrowNoop;
                          arg := continuationMessage |} ]).
Proof.
  intros run. subst run.
  destruct setMessages as [setMessages|name e]; [|done].
  assert (exists returning, clearAlerts = Returning <$> returning) as [cl ->].
  { destruct clearAlerts as [[f|name e]|].
    - by exists (Some f).
    - by specialize (HclearAlerts _ eq_refl).
    - by exists None. }
  destruct setAncestorMessages as [[anc|name e]|].
  - change (Some (Returning anc)) with (Returning <$> Some anc).
    rewrite (Throwing_handleManualCompaction_returning toFrontend messages
               setMessages None cl (Some anc) w).
    destruct (manual_without_append_returning messages setMessages cl (Some anc)
                w w' c olds Holds Hidle) as (w2 & Hrun & Hquiet & Hcont).
    exists w2. do 2 (split; [done|]).
    intros summaryResponse ms Hc Hconv Hlong _.
    exact (Hcont _ _ Hc Hconv Hlong).
  - rewrite Throwing_handleManualCompaction_run.
    destruct (Throwing_ancestors_raise toFrontend messages setMessages ArrowNoop
                true name e
                (with_trace (trace w ++ match cl with
                                        | Some f => called f []
                                        | None => []
                                        end) w)
                c w' olds Holds)
      as (w2 & Hrun & Htimers & _).
    exists w2. split; [done|]. rewrite Hidle in Htimers.
    split; [intros d; by rewrite (elapse_idle d w2 Htimers)|].
    intros summaryResponse ms _ _ _ Hreturns.
    by specialize (Hreturns _ eq_refl).
  - change (@None Callable) with (Returning <$> @None Fn).
    rewrite (Throwing_handleManualCompaction_returning toFrontend messages
               setMessages None cl None w).
    destruct (manual_without_append_returning messages setMessages cl None
                w w' c olds Holds Hidle) as (w2 & Hrun & Hquiet & Hcont).
    exists w2. do 2 (split; [done|]).
    intros summaryResponse ms Hc Hconv Hlong _.
    exact (Hcont _ _ Hc Hconv Hlong).
Qed.

(** C9: a response with more than 3 messages is installed whole: the
    array given to [setMessages] has one converted message per message of
    the response, every one from index 2 on converted with
    (display, sendToLLM) = (false, true), and (no other timer pending)
    the only timer set is for the message at index 2, the only one
    [append] is then called on. *)
Theorem C9_longer_response
    (messages : loc) (setMessages : string) (append : string) (isManual : bool)
    (setAncestorMessages : option Fn) (w w' : World)
    (summaryResponse : Response.t ApiMessage) (ms : list Message)
    (Hcontract : applies_flags toFrontend)
    (Hconv : conversions toFrontend 0 (Response.messages summaryResponse) = Normal ms)
    (Hlong : (3 < length (Response.messages summaryResponse))%nat)
    (Hmsgs : is_Some (messagesAt (heap w') messages))
    (Hidle : timers w' = []) :
  exists w2 convertedMessages ls ancEvents continuationMessage,
    resume (performCompaction toFrontend messages (Callback setMessages)
              (Callback append) isManual setAncestorMessages w)
           (Normal summaryResponse) w'
    = Settled w2 (Normal tt) /\
    trace w2 = trace w' ++ ancEvents ++ [Called setMessages [convertedMessages]] /\
    elementsAt (heap w2) convertedMessages = Some ls /\
    messagesAt (heap w2) convertedMessages = Some ms /\
    length ls = length (Response.messages summaryResponse) /\
    length ms = length (Response.messages summaryResponse) /\
    (forall (i : nat) a, (2 <= i)%nat ->
       Response.messages summaryResponse !! i = Some a ->
       exists m, ms !! i = Some m /\
                 toFrontend a false true = Normal m /\
                 display m = false /\ sendToLLM m = true) /\
    ls !! 2%nat = Some continuationMessage /\
    timers w2 = [ {| due := now w' + 100; callee := Callback append;
                     arg := continuationMessage |} ] /\
    (forall d, 100 <= d ->
       trace (elapse d w2) = trace w2 ++ [Called append [continuationMessage]]).
Proof.
  destruct (performCompaction_schedules toFrontend messages (Callback setMessages)
              (Callback append) isManual setAncestorMessages w summaryResponse
              w' ms Hconv Hmsgs Hidle)
    as (w2 & L & ls & ancEvents & Hrun & Htrace & _ & HL & Hms & Hlen & Hlen'
        & _ & Htimers & _ & Hnow).
  destruct (conversions_lookup toFrontend _ _ _ Hconv) as [_ Hget].
  destruct (ls !! 2%nat) as [continuationMessage|] eqn:Hcont;
    [|apply lookup_ge_None in Hcont; lia].
  exists w2, L, ls, ancEvents, continuationMessage.
  do 6 (split; [done|]).
  split.
  { intros i a Hi Ha. destruct (Hget i a Ha) as (m & Hm & Hc).
    simpl in Hc. rewrite conversionAt_later in Hc by lia.
    exists m. split; [done|]. split; [done|]. by apply Hcontract in Hc. }
  split; [done|]. split; [done|].
  intros d Hd. rewrite (elapse_single d w2 _ Htimers). simpl. rewrite Hnow.
  destruct (now w' + 100 <=? now w' + d) eqn:E; [done|lia].
Qed.

(** C10: [performCompaction] writes no object that exists when it is
    resumed: every location of the store keeps its object, so the input
    array and the messages in it are unchanged on both exits.  On success
    the ancestor snapshot is a new array of new, pairwise distinct
    objects, copies of the input messages with the two flags forced; on
    failure the array given to [setMessages] is a new array whose
    elements are those of the input array followed by the new marker. *)
Theorem C10_input_not_mutated
    (messages : loc) (setMessages append : Fn) (isManual : bool)
    (setAncestorMessages : option Fn) (w w' : World)
    (c : Completion (Response.t ApiMessage)) (olds : list Message)
    (Holds : messagesAt (heap w') messages = Some olds) :
  let run := performCompaction toFrontend messages setMessages append isManual
               setAncestorMessages w in
  heap (world_of run) = heap w /\
  exists w2,
    resume run c w' = Settled w2 (Normal tt) /\
    (forall l o, heap w' !! l = Some o -> heap w2 !! l = Some o) /\
    elementsAt (heap w2) messages = elementsAt (heap w') messages /\
    messagesAt (heap w2) messages = Some olds /\
    (forall f, setAncestorMessages = Some f -> failureOf toFrontend c = None ->
       exists ancestorMessages copies rest,
         trace w2 = trace w' ++ called f [ancestorMessages] ++ rest /\
         heap w' !! ancestorMessages = None /\
         elementsAt (heap w2) ancestorMessages = Some copies /\
         Forall (fun l => heap w' !! l = None) copies /\
         NoDup copies /\
         mapM (messageAt (heap w2)) copies = Some (map asAncestor olds)) /\
    (forall err, failureOf toFrontend c = Some err ->
       exists withMarker marker elems,
         trace w2 = trace w' ++ [ConsoleError "Error during compaction:" err]
                             ++ called setMessages [withMarker] /\
         heap w' !! withMarker = None /\
         heap w' !! marker = None /\
         elementsAt (heap w') messages = Some elems /\
         elementsAt (heap w2) withMarker = Some (elems ++ [marker])).
Proof.
  intros run. subst run. split; [done|].
  pose proof Holds as (elems & Harr & _)%messagesAt_elems.
  assert (Hframe : forall w2, heap w' ⊆ heap w2 ->
            (forall l o, heap w' !! l = Some o -> heap w2 !! l = Some o) /\
            elementsAt (heap w2) messages = elementsAt (heap w') messages /\
            messagesAt (heap w2) messages = Some olds).
  { intros w2 Hsub. split; [intros l o Hl; by apply (lookup_weaken (heap w'))|].
    split; [|by apply (messagesAt_weaken (heap w'))].
    unfold elementsAt. by rewrite Harr, (lookup_weaken _ _ _ _ Harr Hsub). }
  destruct (failureOf toFrontend c) as [err|] eqn:Hfail.
  - destruct (performCompaction_recovers toFrontend messages setMessages append
                isManual setAncestorMessages w c w' err elems Hfail Harr)
      as (w2 & marker & withMarker & Hrun & Hsub & Hmk' & Hwith' & _ & Hwith
          & Htrace & _).
    exists w2. split; [done|].
    destruct (Hframe w2 Hsub) as (H1 & H2 & H3).
    do 3 (split; [done|]).
    split; [done|].
    intros err' [= <-]. exists withMarker, marker, elems.
    do 3 (split; [done|]).
    unfold elementsAt. by rewrite Harr, Hwith.
  - destruct c as [summaryResponse|e]; [|done]. simpl in Hfail.
    destruct (conversions toFrontend 0 (Response.messages summaryResponse))
      as [ms|e] eqn:Hconv; [|done].
    destruct (performCompaction_fulfils toFrontend messages setMessages append
                isManual setAncestorMessages w summaryResponse w' ms Hconv)
      as (w2 & L & ls & ancEvents & Hrun & Hsub & _ & _ & _ & _ & Htrace
          & Hancs & _); [by eexists|].
    exists w2. split; [done|].
    destruct (Hframe w2 Hsub) as (H1 & H2 & H3).
    do 3 (split; [done|]).
    split; [|done].
    intros f -> _.
    destruct Hancs as (A & copies & olds' & -> & Holds' & HA' & HA & Hcopies
                       & Hfresh & Hnodup).
    rewrite Holds in Holds'. injection Holds' as <-.
    exists A, copies, (called setMessages [L]).
    split; [done|]. split; [done|].
    split; [unfold elementsAt; by rewrite HA|].
    split; [done|]. split; [done|]. by apply mapM_Some.
Qed.

End Claims.

(** * The claims on the sample inputs *)

Lemma C1_witness :
  applies_flags Sample.toFrontend /\
  is_Some (messagesAt (heap Sample.world) Sample.messages) /\
  exists w2 convertedMessages ms,
    resume (performCompaction Sample.toFrontend Sample.messages
              (Callback "setMessages") (Callback "append") false
              (Some (Callback "setAncestorMessages")) Sample.world)
           (Normal Sample.summary) Sample.world
    = Settled w2 (Normal tt) /\
    last (trace w2) = Some (Called "setMessages" [convertedMessages]) /\
    messagesAt (heap w2) convertedMessages = Some ms /\
    map id ms = ["marker"; "summary"; "continuation"] /\
    map display ms = [true; false; false] /\
    map sendToLLM ms = [false; true; true].
Proof.
  split; [exact Sample_toFrontend_flags|].
  split; [vm_compute; by eexists|].
  destruct (C1_success_installs_converted Sample.toFrontend
              Sample.messages "setMessages" (Callback "append") false
              (Some (Callback "setAncestorMessages")) Sample.world Sample.world
              Sample.summary _ Sample_toFrontend_flags eq_refl)
    as (w2 & L & ancEvents & Hrun & Htrace & _ & _ & Hms & _).
  { vm_compute. by eexists. }
  exists w2, L. eexists. split; [exact Hrun|].
  split; [rewrite Htrace, app_assoc; apply last_snoc|].
  split; [exact Hms|]. by repeat split.
Defined.

(** C2, as stated, fails when the request rejects with an [Error] whose
    message is empty: the run ends with [compactionError] the empty
    string, not a non-empty one. *)
Lemma C2_counterexample :
  let run := performCompaction Sample.toFrontend Sample.messages
               (Callback "setMessages") (Callback "append") false None
               Sample.world in
  let rejected := Throws (ErrorObject "") in
  (exists w2, resume run rejected Sample.world = Settled w2 (Normal tt) /\
              isCompacting w2 = false /\
              compactionError w2 = Some "") /\
  ~ (exists w2 text, resume run rejected Sample.world = Settled w2 (Normal tt) /\
                     compactionError w2 = Some text /\
                     text <> "").
Proof.
  split.
  - eexists. split; [vm_compute; reflexivity|]. by split.
  - intros (w2 & text & Hrun & Herr & Hne).
    vm_compute in Hrun. injection Hrun as <-.
    simpl in Herr. injection Herr as <-. by apply Hne.
Qed.

Lemma C2_witness :
  failureOf Sample.toFrontend (Normal Sample.badSummary)
  = Some (ErrorObject "cannot convert message") /\
  messagesAt (heap Sample.world) Sample.messages
  = Some [Sample.userMsg; Sample.assistantMsg; Sample.markerMsg] /\
  exists w2 withMarker em,
    resume (performCompaction Sample.toFrontend Sample.messages
              (Callback "setMessages") (Callback "append") false
              (Some (Callback "setAncestorMessages")) Sample.world)
           (Normal Sample.badSummary) Sample.world
    = Settled w2 (Normal tt) /\
    last (trace w2) = Some (Called "setMessages" [withMarker]) /\
    messagesAt (heap w2) withMarker
    = Some [Sample.userMsg; Sample.assistantMsg; Sample.markerMsg; em] /\
    role em = assistant /\
    display em = true /\
    sendToLLM em = false /\
    isCompacting w2 = false /\
    compactionError w2 = Some "cannot convert message".
Proof.
  split; [reflexivity|]. split; [reflexivity|].
  destruct (C2_failure_appends_marker Sample.toFrontend Sample.messages
              "setMessages" (Callback "append") false
              (Some (Callback "setAncestorMessages")) Sample.world Sample.world
              (Normal Sample.badSummary) (ErrorObject "cannot convert message")
              [Sample.userMsg; Sample.assistantMsg; Sample.markerMsg]
              eq_refl eq_refl)
    as (w2 & withMarker & marker & elems & em & Hrun & Htrace & _ & _ & _
        & _ & Hms & Hrole & _ & Hdisplay & Hsend & _ & Hbusy & Herr & _).
  exists w2, withMarker, em.
  split; [exact Hrun|].
  split; [rewrite Htrace; reflexivity|].
  by repeat split.
Defined.

Lemma C3_witness :
  messagesAt (heap Sample.world) Sample.messages
  = Some [Sample.userMsg; Sample.assistantMsg; Sample.markerMsg] /\
  exists w2 ancestorMessages snapshot,
    resume (performCompaction Sample.toFrontend Sample.messages
              (Callback "setMessages") (Callback "append") false
              (Some (Callback "setAncestorMessages")) Sample.world)
           (Normal Sample.summary) Sample.world
    = Settled w2 (Normal tt) /\
    Called "setAncestorMessages" [ancestorMessages] ∈ trace w2 /\
    messagesAt (heap w2) ancestorMessages = Some snapshot /\
    length snapshot = 3%nat /\
    map display snapshot = [true; true; true] /\
    map sendToLLM snapshot = [false; false; false].
Proof.
  split; [reflexivity|].
  destruct (C3_ancestor_snapshot Sample.toFrontend Sample.messages
              (Callback "setMessages") (Callback "append") false
              "setAncestorMessages" Sample.world Sample.world Sample.summary
              _ [Sample.userMsg; Sample.assistantMsg; Sample.markerMsg]
              eq_refl eq_refl)
    as (w2 & A & L & snapshot & Hrun & Htrace & Hsnap & Hlen & _ & ->).
  exists w2, A, (map asAncestor [Sample.userMsg; Sample.assistantMsg; Sample.markerMsg]).
  split; [exact Hrun|].
  split; [rewrite Htrace; apply elem_of_app; right; by left|].
  by repeat split.
Defined.

Lemma C4_witness :
  messageAt (heap Sample.world) 3%positive = Some Sample.markerMsg /\
  hasCompactionMarker 3%positive Sample.world = (Sample.world, Normal true).
Proof.
  split; [reflexivity|].
  destruct (C4_hasCompactionMarker_iff Sample.world 3%positive Sample.markerMsg
              eq_refl) as (b & Hrun & _ & _ & Hany).
  rewrite Hrun. do 2 f_equal.
  by apply (Hany [ {| type := "text"; props := [("text", "compacted")] |} ]
                 {| type := "summarizationRequested"; props := [("msg", "summary")] |}
                 []).
Defined.

Lemma C5_witness :
  compactionError Sample.world = Some "earlier failure" /\
  messagesAt (heap Sample.world) Sample.messages
  = Some [Sample.userMsg; Sample.assistantMsg; Sample.markerMsg] /\
  let manual := handleManualCompaction Sample.toFrontend Sample.messages
                  (Callback "setMessages") None (Some (Callback "clearAlerts"))
                  None Sample.world in
  isCompacting (world_of manual) = true /\
  compactionError (world_of manual) = None /\
  exists w2,
    resume manual (Throws (OtherValue "timeout")) Sample.world
    = Settled w2 (Normal tt) /\
    isCompacting w2 = false.
Proof.
  split; [reflexivity|]. split; [reflexivity|].
  destruct (C5_state_reset_and_release Sample.toFrontend Sample.messages
              (Callback "setMessages") (Callback "append") None
              (Some (Callback "clearAlerts")) None Sample.world Sample.world
              (Throws (OtherValue "timeout"))
              [Sample.userMsg; Sample.assistantMsg; Sample.markerMsg] eq_refl)
    as (_ & (_ & Hbusy & Herr) & _ & Hexit).
  by repeat split.
Defined.

Lemma C6_witness :
  is_Some (messagesAt (heap Sample.world) Sample.messages) /\
  timers Sample.world = [] /\
  (exists w2 continuationMessage,
     resume (performCompaction Sample.toFrontend Sample.messages
               (Callback "setMessages") (Callback "append") false None
               Sample.world)
            (Normal Sample.summary) Sample.world
     = Settled w2 (Normal tt) /\
     (id <$> messageAt (heap w2) continuationMessage) = Some "continuation" /\
     trace (elapse 99 w2) = trace w2 /\
     trace (elapse 100 w2) = trace w2 ++ [Called "append" [continuationMessage]]) /\
  (exists w2,
     resume (performCompaction Sample.toFrontend Sample.messages
               (Callback "setMessages") (Callback "append") false None
               Sample.world)
            (Normal Sample.shortSummary) Sample.world
     = Settled w2 (Normal tt) /\
     timers w2 = [] /\
     trace (elapse 100 w2) = trace w2).
Proof.
  split; [vm_compute; by eexists|]. split; [reflexivity|].
  split.
  - destruct (C6_continuation_after_delay Sample.toFrontend Sample.messages
                (Callback "setMessages") "append" false None Sample.world
                Sample.world Sample.summary _ eq_refl)
      as (w2 & L & ls & ancEvents & Hrun & _ & _ & _ & _ & _ & Hcont);
      [vm_compute; by eexists|reflexivity|].
    destruct (ls !! 2%nat) as [continuationMessage|].
    + destruct Hcont as (_ & Hmsg & _ & Hearly & Hdue).
      exists w2, continuationMessage.
      split; [exact Hrun|]. split; [by rewrite Hmsg|].
      split; [by apply Hearly|by apply Hdue].
    + destruct Hcont as [Hshort _]. simpl in Hshort. lia.
  - destruct (C6_continuation_after_delay Sample.toFrontend Sample.messages
                (Callback "setMessages") "append" false None Sample.world
                Sample.world Sample.shortSummary _ eq_refl)
      as (w2 & L & ls & ancEvents & Hrun & _ & _ & _ & _ & _ & Hcont);
      [vm_compute; by eexists|reflexivity|].
    destruct (ls !! 2%nat) as [continuationMessage|].
    + destruct Hcont as [Hlong _]. simpl in Hlong. lia.
    + destruct Hcont as (_ & Htimers & Hquiet). by exists w2.
Defined.

Lemma C7_witness :
  messagesAt (heap Sample.world) Sample.messages
  = Some [Sample.userMsg; Sample.assistantMsg; Sample.markerMsg] /\
  let run := handleManualCompaction Sample.toFrontend Sample.messages
               (Callback "setMessages") (Some (Callback "append"))
               (Some (Callback "clearAlerts")) None Sample.world in
  trace (world_of run)
  = [Called "clearAlerts" []; BackendRequest Sample.messages "summarize"] /\
  exists w2 added,
    resume run (Normal Sample.summary) (world_of run) = Settled w2 (Normal tt) /\
    trace w2 = trace (world_of run) ++ added /\
    Called "clearAlerts" [] ∉ added.
Proof.
  split; [reflexivity|].
  destruct (C7_clearAlerts_once_before_request Sample.toFrontend Sample.messages
              (Callback "setMessages") (Some (Callback "append")) "clearAlerts"
              None Sample.world
              (world_of (handleManualCompaction Sample.toFrontend Sample.messages
                           (Callback "setMessages") (Some (Callback "append"))
                           (Some (Callback "clearAlerts")) None Sample.world))
              (Normal Sample.summary)
              [Sample.userMsg; Sample.assistantMsg; Sample.markerMsg] eq_refl)
    as (_ & Htrace & w2 & added & Hrun & Hadded & Hnone).
  split; [exact Htrace|]. by exists w2, added.
Defined.

(** C8, as stated, fails when [setMessages] throws: thrown at line 85 it
    is caught, thrown again at line 116 it rejects the promise, and
    [isCompacting] stays true. *)
Lemma C8_counterexample :
  let run := Throwing.handleManualCompaction Sample.toFrontend Sample.messages
               (Raising "setMessages" (ErrorObject "render failed")) None None
               None Sample.world in
  (exists w2,
     resume run (Normal Sample.summary) (world_of run)
     = Settled w2 (Throws (ErrorObject "render failed")) /\
     isCompacting w2 = true) /\
  ~ (exists w2,
       resume run (Normal Sample.summary) (world_of run)
       = Settled w2 (Normal tt)).
Proof.
  split.
  - eexists. split; [vm_compute; reflexivity|]. done.
  - intros (w2 & Hrun). vm_compute in Hrun. discriminate Hrun.
Qed.

Lemma C8_witness :
  returnsNormally (Returning (Callback "setMessages")) = true /\
  messagesAt (heap Sample.world) Sample.messages
  = Some [Sample.userMsg; Sample.assistantMsg; Sample.markerMsg] /\
  timers Sample.world = [] /\
  let run := Throwing.handleManualCompaction Sample.toFrontend Sample.messages
               (Returning (Callback "setMessages")) None
               (Some (Returning (Callback "clearAlerts"))) None Sample.world in
  exists w2 continuationMessage,
    resume run (Normal Sample.summary) Sample.world = Settled w2 (Normal tt) /\
    timers w2 = [ {| due := 1700000003223; callee := ArrowNoop;
                     arg := continuationMessage |} ] /\
    trace (elapse 100 w2) = trace w2.
Proof.
  split; [reflexivity|]. split; [reflexivity|]. split; [reflexivity|].
  destruct (C8_manual_without_append_fulfils Sample.toFrontend Sample.messages
              (Returning (Callback "setMessages"))
              (Some (Returning (Callback "clearAlerts"))) None
              Sample.world Sample.world (Normal Sample.summary)
              [Sample.userMsg; Sample.assistantMsg; Sample.markerMsg]
              eq_refl)
    as (w2 & Hrun & Hquiet & Hcont); [by intros f [= <-]|reflexivity|reflexivity|].
  destruct (Hcont Sample.summary _ eq_refl eq_refl)
    as (L & ls & continuationMessage & m & _ & _ & _ & _ & Htimers);
    [simpl; lia|done|].
  exists w2, continuationMessage.
  split; [exact Hrun|]. split; [exact Htimers|]. apply Hquiet.
Defined.

Lemma C9_witness :
  applies_flags Sample.toFrontend /\
  (3 < length (Response.messages Sample.longSummary))%nat /\
  is_Some (messagesAt (heap Sample.world) Sample.messages) /\
  timers Sample.world = [] /\
  exists w2 convertedMessages ms continuationMessage,
    resume (performCompaction Sample.toFrontend Sample.messages
              (Callback "setMessages") (Callback "append") false None
              Sample.world)
           (Normal Sample.longSummary) Sample.world
    = Settled w2 (Normal tt) /\
    last (trace w2) = Some (Called "setMessages" [convertedMessages]) /\
    messagesAt (heap w2) convertedMessages = Some ms /\
    map id ms = ["marker"; "summary"; "continuation"; "extra"; "more"] /\
    map display ms = [true; false; false; false; false] /\
    map sendToLLM ms = [false; true; true; true; true] /\
    timers w2 = [ {| due := 1700000003223; callee := Callback "append";
                     arg := continuationMessage |} ].
Proof.
  split; [exact Sample_toFrontend_flags|].
  split; [simpl; lia|].
  split; [vm_compute; by eexists|]. split; [reflexivity|].
  destruct (C9_longer_response Sample.toFrontend Sample.messages "setMessages"
              "append" false None Sample.world Sample.world Sample.longSummary _
              Sample_toFrontend_flags eq_refl)
    as (w2 & L & ls & ancEvents & continuationMessage & Hrun & Htrace & _ & Hms
        & _ & _ & _ & _ & Htimers & _);
    [simpl; lia|vm_compute; by eexists|reflexivity|].
  exists w2, L. eexists. exists continuationMessage.
  split; [exact Hrun|].
  split; [rewrite Htrace, app_assoc; apply last_snoc|].
  split; [exact Hms|]. by repeat split.
Defined.

Lemma C10_witness :
  messagesAt (heap Sample.world) Sample.messages
  = Some [Sample.userMsg; Sample.assistantMsg; Sample.markerMsg] /\
  exists w2,
    resume (performCompaction Sample.toFrontend Sample.messages
              (Callback "setMessages") (Callback "append") false
              (Some (Callback "setAncestorMessages")) Sample.world)
           (Normal Sample.summary) Sample.world
    = Settled w2 (Normal tt) /\
    elementsAt (heap w2) Sample.messages
    = Some [1%positive; 2%positive; 3%positive] /\
    messagesAt (heap w2) Sample.messages
    = Some [Sample.userMsg; Sample.assistantMsg; Sample.markerMsg] /\
    exists ancestorMessages copies,
      elementsAt (heap w2) ancestorMessages = Some copies /\
      (ancestorMessages ∉ dom Sample.store) /\
      Forall (fun l => l ∉ dom Sample.store) copies.
Proof.
  split; [reflexivity|].
  destruct (C10_input_not_mutated Sample.toFrontend Sample.messages
              (Callback "setMessages") (Callback "append") false
              (Some (Callback "setAncestorMessages")) Sample.world Sample.world
              (Normal Sample.summary)
              [Sample.userMsg; Sample.assistantMsg; Sample.markerMsg] eq_refl)
    as (_ & w2 & Hrun & _ & Helems & Hmsgs & Hanc & _).
  exists w2. split; [exact Hrun|]. split; [exact Helems|]. split; [exact Hmsgs|].
  destruct (Hanc _ eq_refl eq_refl)
    as (A & copies & rest & _ & HA' & HA & Hfresh & _).
  exists A, copies. split; [exact HA|].
  split; [by apply not_elem_of_dom|].
  eapply Forall_impl; [exact Hfresh|]. intros l Hl. by apply not_elem_of_dom.
Defined.

(** * Further properties of the orchestrator *)

Lemma hasCompactionMarker_run (w : World) (message : loc) (m : Message) :
  messageAt (heap w) message = Some m ->
  hasCompactionMarker message w
  = (w, Normal (existsb (fun block =>
                           String.eqb (type block) "summarizationRequested")
                        (content m))).
Proof.
  unfold messageAt, hasCompactionMarker. simpl. unfold bindS, readMessage.
  destruct (heap w !! message) as [[m'|]|]; try done. by intros [= ->].
Qed.

Lemma elapse_pair d w t1 t2 :
  timers w = [t1; t2] ->
  due t1 <= now w + d ->
  due t2 <= now w + d ->
  trace (elapse d w)
  = trace w ++ called (callee t1) [arg t1] ++ called (callee t2) [arg t2].
Proof.
  unfold elapse. simpl. intros -> H1 H2. simpl.
  destruct (due t1 <=? now w + d) eqn:E1; [|lia].
  rewrite call_run. simpl.
  destruct (due t2 <=? now w + d) eqn:E2; [|lia].
  rewrite call_run. simpl. by rewrite <- app_assoc.
Qed.

Lemma elapse_single_pending d w t :
  timers w = [t] -> now w + d < due t -> elapse d w = with_now (now w + d) w.
Proof.
  unfold elapse. simpl. intros -> Hlt. simpl.
  destruct (due t <=? now w + d) eqn:E; [lia|done].
Qed.

Lemma elapse_single_due d w t :
  timers w = [t] -> due t <= now w + d ->
  elapse d w
  = with_trace (trace w ++ called (callee t) [arg t])
      (with_timers [] (with_now (now w + d) w)).
Proof.
  unfold elapse. simpl. intros -> Hle. simpl.
  destruct (due t <=? now w + d) eqn:E; [|lia].
  by rewrite call_run.
Qed.

Section Further.

Context {ApiMessage : Type}.
Variable toFrontend : ApiMessage -> bool -> bool -> Completion Message.


(** X1: on the failure exit nothing but [console.error] and
    [setMessages] is called: the ancestors are not stored, no timer is
    set, and later no continuation is appended. *)
Theorem failure_skips_ancestors_and_continuation
    (messages : loc) (setMessages append : Fn) (isManual : bool)
    (setAncestorMessages : option Fn) (w w' : World)
    (c : Completion (Response.t ApiMessage)) (err : Thrown) (olds : list Message)
    (Hfail : failureOf toFrontend c = Some err)
    (Holds : messagesAt (heap w') messages = Some olds) :
  exists w2 withMarker,
    resume (performCompaction toFrontend messages setMessages append isManual
              setAncestorMessages w) c w'
    = Settled w2 (Normal tt) /\
    trace w2 = trace w' ++ [ConsoleError "Error during compaction:" err]
                        ++ called setMessages [withMarker] /\
    timers w2 = timers w' /\
    (timers w' = [] -> forall d, trace (elapse d w2) = trace w2).
Proof.
  pose proof Holds as (elems & Harr & _)%messagesAt_elems.
  destruct (performCompaction_recovers toFrontend messages setMessages append
              isManual setAncestorMessages w c w' err elems Hfail Harr)
    as (w2 & marker & withMarker & Hrun & _ & _ & _ & _ & _ & Htrace
        & Htimers & _).
  exists w2, withMarker. do 3 (split; [done|]).
  intros Hidle d. rewrite Hidle in Htimers. by rewrite (elapse_idle d w2 Htimers).
Qed.

(** X2: the message appended on failure is itself a compaction marker:
    [hasCompactionMarker] answers true on the last element of the array
    given to [setMessages]. *)
Theorem error_marker_is_compaction_marker
    (messages : loc) (setMessages : string) (append : Fn) (isManual : bool)
    (setAncestorMessages : option Fn) (w w' : World)
    (c : Completion (Response.t ApiMessage)) (err : Thrown) (olds : list Message)
    (Hfail : failureOf toFrontend c = Some err)
    (Holds : messagesAt (heap w') messages = Some olds) :
  exists w2 withMarker elems marker,
    resume (performCompaction toFrontend messages (Callback setMessages) append
              isManual setAncestorMessages w) c w'
    = Settled w2 (Normal tt) /\
    last (trace w2) = Some (Called setMessages [withMarker]) /\
    elementsAt (heap w2) withMarker = Some elems /\
    last elems = Some marker /\
    hasCompactionMarker marker w2 = (w2, Normal true).
Proof.
  pose proof Holds as (elems & Harr & _)%messagesAt_elems.
  destruct (performCompaction_recovers toFrontend messages (Callback setMessages)
              append isManual setAncestorMessages w c w' err elems Hfail Harr)
    as (w2 & marker & withMarker & Hrun & _ & _ & _ & Hmk & Hwith & Htrace & _).
  exists w2, withMarker, (elems ++ [marker]), marker.
  split; [done|].
  split; [rewrite Htrace; unfold called; rewrite app_assoc; apply last_snoc|].
  split; [unfold elementsAt; by rewrite Hwith|].
  split; [apply last_snoc|].
  rewrite (hasCompactionMarker_run w2 marker (errorMarker (now w') (now w')));
    [done|unfold messageAt; by rewrite Hmk].
Qed.

(** X3: the ancestor snapshot changes the two flags only: the copy at
    each position has the identifier, role, timestamp and content of the
    original at that position, so [hasCompactionMarker] answers on the
    copy what it answers on the original. *)
Theorem ancestor_copies_keep_markers
    (messages : loc) (setMessages append : Fn) (isManual : bool)
    (setAncestorMessages : string) (w w' : World)
    (summaryResponse : Response.t ApiMessage) (ms olds : list Message)
    (Hconv : conversions toFrontend 0 (Response.messages summaryResponse) = Normal ms)
    (Holds : messagesAt (heap w') messages = Some olds) :
  exists w2 ancestorMessages elems copies,
    resume (performCompaction toFrontend messages setMessages append isManual
              (Some (Callback setAncestorMessages)) w)
           (Normal summaryResponse) w'
    = Settled w2 (Normal tt) /\
    Called setAncestorMessages [ancestorMessages] ∈ trace w2 /\
    elementsAt (heap w') messages = Some elems /\
    elementsAt (heap w2) ancestorMessages = Some copies /\
    length copies = length elems /\
    forall (i : nat) original copy,
      elems !! i = Some original -> copies !! i = Some copy ->
      exists m m',
        messageAt (heap w2) original = Some m /\
        messageAt (heap w2) copy = Some m' /\
        id m' = id m /\ role m' = role m /\ created m' = created m /\
        content m' = content m /\
        hasCompactionMarker copy w2 = hasCompactionMarker original w2.
Proof.
  pose proof Holds as (elems & Harr & Helems)%messagesAt_elems.
  destruct (performCompaction_fulfils toFrontend messages setMessages append
              isManual (Some (Callback setAncestorMessages)) w summaryResponse
              w' ms Hconv)
    as (w2 & L & ls & ancEvents & Hrun & Hsub & _ & _ & _ & _ & Htrace
        & Hancs & _); [by eexists|].
  destruct Hancs as (A & copies & olds' & -> & Holds' & _ & HA & Hcopies & _).
  rewrite Holds in Holds'. injection Holds' as <-.
  apply (Forall2_messageAt_weaken _ _ _ _ Hsub) in Helems.
  exists w2, A, elems, copies.
  split; [done|].
  split; [rewrite Htrace; apply elem_of_app; right; by left|].
  split; [unfold elementsAt; by rewrite Harr|].
  split; [unfold elementsAt; by rewrite HA|].
  split.
  { rewrite (Forall2_length _ _ _ Hcopies), length_map.
    by rewrite (Forall2_length _ _ _ Helems). }
  intros i original copy Horig Hcopy.
  destruct (Forall2_lookup_l _ _ _ _ _ Helems Horig) as (m & Hm & Hat).
  destruct (Forall2_lookup_l _ _ _ _ _ Hcopies Hcopy) as (m' & Hm' & Hat').
  change (map asAncestor olds) with (asAncestor <$> olds) in Hm'.
  rewrite list_lookup_fmap, Hm in Hm'. injection Hm' as <-.
  exists m, (asAncestor m). do 6 (split; [done|]).
  by rewrite (hasCompactionMarker_run _ _ _ Hat), (hasCompactionMarker_run _ _ _ Hat').
Qed.

(** X5: the identifier of the error marker follows the clock: two
    failures give markers with the same identifier exactly when they are
    handled at the same clock reading. *)
Theorem error_marker_ids_follow_clock
    (messages : loc) (setMessages append : Fn) (isManual : bool)
    (setAncestorMessages : option Fn) (w wa wb : World)
    (ca cb : Completion (Response.t ApiMessage)) (erra errb : Thrown)
    (oldsa oldsb : list Message)
    (Hfaila : failureOf toFrontend ca = Some erra)
    (Hfailb : failureOf toFrontend cb = Some errb)
    (Holdsa : messagesAt (heap wa) messages = Some oldsa)
    (Holdsb : messagesAt (heap wb) messages = Some oldsb) :
  exists wa2 wb2 ema emb,
    resume (performCompaction toFrontend messages setMessages append isManual
              setAncestorMessages w) ca wa
    = Settled wa2 (Normal tt) /\
    resume (performCompaction toFrontend messages setMessages append isManual
              setAncestorMessages w) cb wb
    = Settled wb2 (Normal tt) /\
    (exists arr, trace wa2 = trace wa ++ [ConsoleError "Error during compaction:" erra]
                                      ++ called setMessages [arr] /\
                 messagesAt (heap wa2) arr = Some (oldsa ++ [ema])) /\
    (exists arr, trace wb2 = trace wb ++ [ConsoleError "Error during compaction:" errb]
                                      ++ called setMessages [arr] /\
                 messagesAt (heap wb2) arr = Some (oldsb ++ [emb])) /\
    (id ema = id emb <-> now wa = now wb).
Proof.
  assert (Hone : forall c err w' olds,
            failureOf toFrontend c = Some err ->
            messagesAt (heap w') messages = Some olds ->
            exists w2 arr,
              resume (performCompaction toFrontend messages setMessages append
                        isManual setAncestorMessages w) c w'
              = Settled w2 (Normal tt) /\
              trace w2 = trace w' ++ [ConsoleError "Error during compaction:" err]
                                  ++ called setMessages [arr] /\
              messagesAt (heap w2) arr
              = Some (olds ++ [errorMarker (now w') (now w')])).
  { intros c err w' olds Hfail Holds.
    pose proof Holds as (elems & Harr & Helems)%messagesAt_elems.
    destruct (performCompaction_recovers toFrontend messages setMessages append
                isManual setAncestorMessages w c w' err elems Hfail Harr)
      as (w2 & marker & withMarker & Hrun & Hsub & _ & _ & Hmk & Hwith
          & Htrace & _).
    exists w2, withMarker. do 2 (split; [done|]).
    apply messagesAt_elems. exists (elems ++ [marker]). split; [done|].
    apply Forall2_app; [by apply (Forall2_messageAt_weaken (heap w'))|].
    constructor; [|done]. unfold messageAt. by rewrite Hmk. }
  destruct (Hone ca erra wa oldsa Hfaila Holdsa) as (wa2 & arra & Hra & Hta & Hma).
  destruct (Hone cb errb wb oldsb Hfailb Holdsb) as (wb2 & arrb & Hrb & Htb & Hmb).
  exists wa2, wb2, (errorMarker (now wa) (now wa)), (errorMarker (now wb) (now wb)).
  do 2 (split; [done|]).
  split; [by exists arra|]. split; [by exists arrb|].
  simpl. split.
  - intros H. apply String.app_inj in H. by apply pretty_Z_inj in H.
  - by intros ->.
Qed.

(** X6: the manual entry point is the automatic one, run after the
    optional call of [clearAlerts] and with the no-op function standing
    in for a missing [append]; that an attempt is manual changes nothing
    else. *)
Theorem manual_is_auto_after_clearAlerts
    (messages : loc) (setMessages : Fn) (append clearAlerts : option Fn)
    (setAncestorMessages : option Fn) (w : World) :
  handleManualCompaction toFrontend messages setMessages append clearAlerts
    setAncestorMessages w
  = handleAutoCompaction toFrontend messages setMessages
      (match append with Some f => f | None => ArrowNoop end)
      setAncestorMessages
      (match clearAlerts with
       | Some f => fst (call f [] w)
       | None => w
       end).
Proof.
  unfold handleManualCompaction, handleAutoCompaction.
  destruct clearAlerts as [f|]; [|done].
  simpl. unfold sync at 1. by rewrite call_run.
Qed.

(** X7: an attempt that nothing interferes with leaves the state of its
    own outcome, whatever an earlier attempt left: after success
    [compactionError] is absent, after failure it is the text of this
    failure; [isCompacting] is false in both cases. *)
Theorem uninterrupted_attempt_state
    (messages : loc) (setMessages append : Fn)
    (setAncestorMessages : option Fn) (w : World)
    (c : Completion (Response.t ApiMessage)) (olds : list Message)
    (Holds : messagesAt (heap w) messages = Some olds) :
  let run := handleAutoCompaction toFrontend messages setMessages append
               setAncestorMessages w in
  exists w2,
    resume run c (world_of run) = Settled w2 (Normal tt) /\
    isCompacting w2 = false /\
    compactionError w2 = errorText <$> failureOf toFrontend c.
Proof.
  intros run. subst run. unfold handleAutoCompaction.
  set (run := performCompaction _ _ _ _ _ _ w).
  assert (Hw : heap (world_of run) = heap w) by done.
  assert (He : compactionError (world_of run) = None) by done.
  destruct (failureOf toFrontend c) as [err|] eqn:Hfail.
  - pose proof Holds as (elems & Harr & _)%messagesAt_elems.
    rewrite <- Hw in Harr.
    destruct (performCompaction_recovers toFrontend messages setMessages append
                false setAncestorMessages w c (world_of run) err elems Hfail Harr)
      as (w2 & marker & withMarker & Hrun & _ & _ & _ & _ & _ & _ & _
          & Hbusy & Herr & _).
    by exists w2.
  - rewrite <- Hw in Holds.
    destruct (performCompaction_exits toFrontend messages setMessages append
                false setAncestorMessages w c (world_of run) olds Holds)
      as (w2 & added & Hrun & Hbusy & _ & _ & _ & Herr).
    exists w2. do 2 (split; [done|]). rewrite (Herr Hfail). exact He.
Qed.

(** X8: nothing excludes a second attempt while the first one waits: it
    starts, sends its own request, and waits too; and when the first
    settles it sets [isCompacting] to false although the second is still
    waiting. *)
Theorem overlapping_attempts_not_excluded
    (messages messages2 : loc) (setMessages append setMessages2 append2 : Fn)
    (setAncestorMessages setAncestorMessages2 : option Fn) (w : World)
    (c : Completion (Response.t ApiMessage)) (olds : list Message)
    (Holds : messagesAt (heap w) messages = Some olds) :
  let first := handleAutoCompaction toFrontend messages setMessages append
                 setAncestorMessages w in
  let second := handleAutoCompaction toFrontend messages2 setMessages2 append2
                  setAncestorMessages2 (world_of first) in
  is_pending second = true /\
  trace (world_of second)
  = trace w ++ [BackendRequest messages "summarize";
                BackendRequest messages2 "summarize"] /\
  isCompacting (world_of second) = true /\
  exists w3,
    resume first c (world_of second) = Settled w3 (Normal tt) /\
    isCompacting w3 = false.
Proof.
  intros first second. subst first second. unfold handleAutoCompaction.
  split; [done|]. split; [simpl; by rewrite <- app_assoc|]. split; [done|].
  set (first := performCompaction _ messages _ _ _ _ w).
  set (second := performCompaction _ messages2 _ _ _ _ _).
  assert (Hw : heap (world_of second) = heap w) by done.
  rewrite <- Hw in Holds.
  destruct (performCompaction_exits toFrontend messages setMessages append false
              setAncestorMessages w c (world_of second) olds Holds)
    as (w3 & added & Hrun & Hbusy & _).
  by exists w3.
Qed.

(** X9: two pending attempts that both succeed with a continuation
    both submit it, whichever was started first and whatever time
    separates the two settlements (no other timer pending when the
    earlier one settles): [append] is called once on the continuation of
    each response, in the order of settlement; when the later attempt
    settles less than 100 time units after the earlier, both calls come
    after it, otherwise the first call has already been made. *)
Theorem overlapping_successes_append_twice
    (messages : loc) (setMessages : Fn) (appendA appendB : string)
    (setAncestorMessages : option Fn) (wa wb w' : World)
    (responseA responseB : Response.t ApiMessage) (msA msB olds : list Message)
    (gap d : Z)
    (HconvA : conversions toFrontend 0 (Response.messages responseA) = Normal msA)
    (HconvB : conversions toFrontend 0 (Response.messages responseB) = Normal msB)
    (HlenA : (3 <= length (Response.messages responseA))%nat)
    (HlenB : (3 <= length (Response.messages responseB))%nat)
    (Holds : messagesAt (heap w') messages = Some olds)
    (Hidle : timers w' = [])
    (Hgap : 0 <= gap)
    (Hd : 100 <= d) :
  let earlier := handleAutoCompaction toFrontend messages setMessages
                   (Callback appendA) setAncestorMessages wa in
  let later := handleAutoCompaction toFrontend messages setMessages
                 (Callback appendB) setAncestorMessages wb in
  exists w3 w4 continuationA continuationB,
    resume earlier (Normal responseA) w' = Settled w3 (Normal tt) /\
    resume later (Normal responseB) (elapse gap w3) = Settled w4 (Normal tt) /\
    messageAt (heap w4) continuationA = msA !! 2%nat /\
    messageAt (heap w4) continuationB = msB !! 2%nat /\
    if gap <? 100
    then trace (elapse gap w3) = trace w3 /\
         trace (elapse d w4)
         = trace w4 ++ [Called appendA [continuationA];
                        Called appendB [continuationB]]
    else trace (elapse gap w3) = trace w3 ++ [Called appendA [continuationA]] /\
         trace (elapse d w4) = trace w4 ++ [Called appendB [continuationB]].
Proof.
  intros earlier later. subst earlier later. unfold handleAutoCompaction.
  destruct (performCompaction_fulfils toFrontend messages setMessages
              (Callback appendA) false setAncestorMessages wa responseA w' msA
              HconvA)
    as (w3 & LA & lsA & evA & HrunA & HsubA & _ & _ & HmsA & _ & _ & _
        & HtimersA & _ & _ & HnowA); [by eexists|].
  destruct (conversions_lookup toFrontend _ _ _ HconvA) as [HlA _].
  destruct (conversions_lookup toFrontend _ _ _ HconvB) as [HlB _].
  destruct (lsA !! 2%nat) as [cA|] eqn:HcA;
    [|apply lookup_ge_None in HcA; rewrite (Forall2_length _ _ _ HmsA) in HcA; lia].
  destruct (Forall2_lookup_l _ _ _ _ _ HmsA HcA) as (mA & HmA & HatA).
  rewrite Hidle in HtimersA. simpl in HtimersA.
  assert (Holds3 : messagesAt (heap w3) messages = Some olds)
    by (by apply (messagesAt_weaken (heap w'))).
  destruct (gap <? 100) eqn:Egap.
  - assert (Hel : elapse gap w3 = with_now (now w3 + gap) w3)
      by (apply (elapse_single_pending gap w3 _ HtimersA); simpl; lia).
    destruct (performCompaction_fulfils toFrontend messages setMessages
                (Callback appendB) false setAncestorMessages wb responseB
                (with_now (now w3 + gap) w3) msB HconvB)
      as (w4 & LB & lsB & evB & HrunB & HsubB & _ & _ & HmsB & _ & _ & _
          & HtimersB & _ & _ & HnowB); [by eexists|].
    simpl in HsubB, HtimersB, HnowB.
    destruct (lsB !! 2%nat) as [cB|] eqn:HcB;
      [|apply lookup_ge_None in HcB; rewrite (Forall2_length _ _ _ HmsB) in HcB; lia].
    destruct (Forall2_lookup_l _ _ _ _ _ HmsB HcB) as (mB & HmB & HatB).
    rewrite HtimersA in HtimersB. simpl in HtimersB.
    destruct (now w3 + gap + 100 <? now w' + 100) eqn:E; [lia|].
    exists w3, w4, cA, cB. rewrite Hel.
    split; [done|]. split; [done|].
    split; [rewrite HmA; by apply (messageAt_weaken (heap w3))|].
    split; [by rewrite HmB|].
    split; [done|].
    rewrite (elapse_pair d w4 _ _ HtimersB); simpl; [done|lia|lia].
  - pose proof (elapse_single_due gap w3 _ HtimersA) as Hel.
    simpl in Hel. specialize (Hel ltac:(lia)).
    destruct (performCompaction_fulfils toFrontend messages setMessages
                (Callback appendB) false setAncestorMessages wb responseB
                (with_trace (trace w3 ++ [Called appendA [cA]])
                   (with_timers [] (with_now (now w3 + gap) w3)))
                msB HconvB)
      as (w4 & LB & lsB & evB & HrunB & HsubB & _ & _ & HmsB & _ & _ & _
          & HtimersB & _ & _ & HnowB); [by eexists|].
    simpl in HsubB, HtimersB, HnowB.
    destruct (lsB !! 2%nat) as [cB|] eqn:HcB;
      [|apply lookup_ge_None in HcB; rewrite (Forall2_length _ _ _ HmsB) in HcB; lia].
    destruct (Forall2_lookup_l _ _ _ _ _ HmsB HcB) as (mB & HmB & HatB).
    exists w3, w4, cA, cB. rewrite Hel.
    split; [done|]. split; [done|].
    split; [rewrite HmA; by apply (messageAt_weaken (heap w3))|].
    split; [by rewrite HmB|].
    split; [done|].
    rewrite (elapse_single d w4 _ HtimersB). simpl.
    destruct (now w3 + gap + 100 <=? now w4 + d) eqn:E; [done|lia].
Qed.

(** X10: a response without messages still counts as success: the array
    given to [setMessages] is empty, so the live list is emptied; no
    timer is set and [compactionError] is left as it was. *)
Theorem empty_response_empties_the_list
    (messages : loc) (setMessages : string) (append : Fn) (isManual : bool)
    (setAncestorMessages : option Fn) (w w' : World)
    (summaryResponse : Response.t ApiMessage)
    (Hempty : Response.messages summaryResponse = [])
    (Hmsgs : is_Some (messagesAt (heap w') messages)) :
  exists w2 convertedMessages,
    resume (performCompaction toFrontend messages (Callback setMessages) append
              isManual setAncestorMessages w)
           (Normal summaryResponse) w'
    = Settled w2 (Normal tt) /\
    last (trace w2) = Some (Called setMessages [convertedMessages]) /\
    messagesAt (heap w2) convertedMessages = Some [] /\
    timers w2 = timers w' /\
    isCompacting w2 = false /\
    compactionError w2 = compactionError w'.
Proof.
  assert (Hconv : conversions toFrontend 0 (Response.messages summaryResponse)
                  = Normal []) by (by rewrite Hempty).
  destruct (performCompaction_fulfils toFrontend messages (Callback setMessages)
              append isManual setAncestorMessages w summaryResponse w' [] Hconv)
    as (w2 & L & ls & ancEvents & Hrun & _ & _ & HL & Hms & _ & Htrace & _
        & Htimers & Hbusy & Herr & _); [by intros _|].
  apply Forall2_nil_inv_r in Hms as ->.
  exists w2, L.
  split; [done|].
  split; [rewrite Htrace; unfold called; rewrite app_assoc; apply last_snoc|].
  split; [apply messagesAt_elems; exists []; by split|].
  done.
Qed.


End Further.

(** * The further properties on the sample inputs *)

Lemma failure_skips_ancestors_and_continuation_witness :
  failureOf Sample.toFrontend (Normal Sample.badSummary)
  = Some (ErrorObject "cannot convert message") /\
  messagesAt (heap Sample.world) Sample.messages
  = Some [Sample.userMsg; Sample.assistantMsg; Sample.markerMsg] /\
  exists w2 withMarker,
    resume (performCompaction Sample.toFrontend Sample.messages
              (Callback "setMessages") (Callback "append") false
              (Some (Callback "setAncestorMessages")) Sample.world)
           (Normal Sample.badSummary) Sample.world
    = Settled w2 (Normal tt) /\
    trace w2 = [ConsoleError "Error during compaction:"
                  (ErrorObject "cannot convert message");
                Called "setMessages" [withMarker]] /\
    timers w2 = [] /\
    trace (elapse 100 w2) = trace w2.
Proof.
  split; [reflexivity|]. split; [reflexivity|].
  destruct (failure_skips_ancestors_and_continuation Sample.toFrontend
              Sample.messages (Callback "setMessages") (Callback "append") false
              (Some (Callback "setAncestorMessages")) Sample.world Sample.world
              (Normal Sample.badSummary) (ErrorObject "cannot convert message")
              [Sample.userMsg; Sample.assistantMsg; Sample.markerMsg]
              eq_refl eq_refl)
    as (w2 & withMarker & Hrun & Htrace & Htimers & Hquiet).
  exists w2, withMarker. split; [exact Hrun|]. split; [exact Htrace|].
  split; [exact Htimers|]. by apply Hquiet.
Defined.

Lemma error_marker_is_compaction_marker_witness :
  failureOf Sample.toFrontend (Throws (OtherValue "503"))
  = Some (OtherValue "503") /\
  messagesAt (heap Sample.world) Sample.messages
  = Some [Sample.userMsg; Sample.assistantMsg; Sample.markerMsg] /\
  exists w2 withMarker elems marker,
    resume (performCompaction Sample.toFrontend Sample.messages
              (Callback "setMessages") (Callback "append") false None
              Sample.world)
           (Throws (OtherValue "503")) Sample.world
    = Settled w2 (Normal tt) /\
    last (trace w2) = Some (Called "setMessages" [withMarker]) /\
    elementsAt (heap w2) withMarker = Some elems /\
    last elems = Some marker /\
    hasCompactionMarker marker w2 = (w2, Normal true).
Proof.
  split; [reflexivity|]. split; [reflexivity|].
  destruct (error_marker_is_compaction_marker Sample.toFrontend Sample.messages
              "setMessages" (Callback "append") false None Sample.world
              Sample.world (Throws (OtherValue "503")) (OtherValue "503")
              [Sample.userMsg; Sample.assistantMsg; Sample.markerMsg]
              eq_refl eq_refl)
    as (w2 & withMarker & elems & marker & Hrun & Hlast & Helems & Hmk & Hmark).
  by exists w2, withMarker, elems, marker.
Defined.

Lemma ancestor_copies_keep_markers_witness :
  messagesAt (heap Sample.world) Sample.messages
  = Some [Sample.userMsg; Sample.assistantMsg; Sample.markerMsg] /\
  exists w2 ancestorMessages copies copy,
    resume (performCompaction Sample.toFrontend Sample.messages
              (Callback "setMessages") (Callback "append") false
              (Some (Callback "setAncestorMessages")) Sample.world)
           (Normal Sample.summary) Sample.world
    = Settled w2 (Normal tt) /\
    elementsAt (heap w2) ancestorMessages = Some copies /\
    copies !! 2%nat = Some copy /\
    hasCompactionMarker copy w2 = hasCompactionMarker 3%positive w2.
Proof.
  split; [reflexivity|].
  destruct (ancestor_copies_keep_markers Sample.toFrontend Sample.messages
              (Callback "setMessages") (Callback "append") false
              "setAncestorMessages" Sample.world Sample.world Sample.summary _
              [Sample.userMsg; Sample.assistantMsg; Sample.markerMsg]
              eq_refl eq_refl)
    as (w2 & A & elems & copies & Hrun & _ & Helems & HA & Hlen & Hsame).
  vm_compute in Helems. injection Helems as <-.
  destruct (copies !! 2%nat) as [copy|] eqn:Hcopy;
    [|apply lookup_ge_None in Hcopy; simpl in Hlen; lia].
  destruct (Hsame 2%nat 3%positive copy eq_refl Hcopy)
    as (m & m' & _ & _ & _ & _ & _ & _ & Hmark).
  by exists w2, A, copies, copy.
Defined.

Lemma error_marker_ids_follow_clock_witness :
  let later := with_now (now Sample.world + 1) Sample.world in
  failureOf Sample.toFrontend (Throws (OtherValue "503"))
  = Some (OtherValue "503") /\
  messagesAt (heap Sample.world) Sample.messages
  = Some [Sample.userMsg; Sample.assistantMsg; Sample.markerMsg] /\
  messagesAt (heap later) Sample.messages
  = Some [Sample.userMsg; Sample.assistantMsg; Sample.markerMsg] /\
  exists ema emb,
    (id ema = id emb <-> now Sample.world = now later) /\
    id ema <> id emb.
Proof.
  intros later.
  split; [reflexivity|]. split; [reflexivity|]. split; [reflexivity|].
  destruct (error_marker_ids_follow_clock Sample.toFrontend Sample.messages
              (Callback "setMessages") (Callback "append") false None
              Sample.world Sample.world later
              (Throws (OtherValue "503")) (Throws (OtherValue "503"))
              (OtherValue "503") (OtherValue "503")
              [Sample.userMsg; Sample.assistantMsg; Sample.markerMsg]
              [Sample.userMsg; Sample.assistantMsg; Sample.markerMsg]
              eq_refl eq_refl eq_refl eq_refl)
    as (wa2 & wb2 & ema & emb & _ & _ & _ & _ & Hiff).
  exists ema, emb. split; [exact Hiff|].
  intros Heq. apply Hiff in Heq. simpl in Heq. lia.
Defined.

Lemma uninterrupted_attempt_state_witness :
  compactionError Sample.world = Some "earlier failure" /\
  messagesAt (heap Sample.world) Sample.messages
  = Some [Sample.userMsg; Sample.assistantMsg; Sample.markerMsg] /\
  let run := handleAutoCompaction Sample.toFrontend Sample.messages
               (Callback "setMessages") (Callback "append") None Sample.world in
  exists w2,
    resume run (Normal Sample.summary) (world_of run) = Settled w2 (Normal tt) /\
    isCompacting w2 = false /\
    compactionError w2 = None.
Proof.
  split; [reflexivity|]. split; [reflexivity|].
  exact (uninterrupted_attempt_state Sample.toFrontend Sample.messages
           (Callback "setMessages") (Callback "append") None Sample.world
           (Normal Sample.summary)
           [Sample.userMsg; Sample.assistantMsg; Sample.markerMsg] eq_refl).
Defined.

Lemma overlapping_attempts_not_excluded_witness :
  messagesAt (heap Sample.world) Sample.messages
  = Some [Sample.userMsg; Sample.assistantMsg; Sample.markerMsg] /\
  let first := handleAutoCompaction Sample.toFrontend Sample.messages
                 (Callback "setMessages") (Callback "append") None
                 Sample.world in
  let second := handleAutoCompaction Sample.toFrontend Sample.messages
                  (Callback "setMessages") (Callback "append") None
                  (world_of first) in
  is_pending second = true /\
  exists w3,
    resume first (Normal Sample.summary) (world_of second)
    = Settled w3 (Normal tt) /\
    isCompacting w3 = false.
Proof.
  split; [reflexivity|].
  destruct (overlapping_attempts_not_excluded Sample.toFrontend Sample.messages
              Sample.messages (Callback "setMessages") (Callback "append")
              (Callback "setMessages") (Callback "append") None None
              Sample.world (Normal Sample.summary)
              [Sample.userMsg; Sample.assistantMsg; Sample.markerMsg] eq_refl)
    as (Hpending & _ & _ & Hfirst).
  by split.
Defined.

Lemma overlapping_successes_append_twice_witness :
  let first := handleAutoCompaction Sample.toFrontend Sample.messages
                 (Callback "setMessages") (Callback "append") None
                 Sample.world in
  let second := handleAutoCompaction Sample.toFrontend Sample.messages
                  (Callback "setMessages") (Callback "append") None
                  (world_of first) in
  messagesAt (heap (world_of second)) Sample.messages
  = Some [Sample.userMsg; Sample.assistantMsg; Sample.markerMsg] /\
  timers (world_of second) = [] /\
  (exists w3 w4 continuation1 continuation2,
     resume second (Normal Sample.longSummary) (world_of second)
     = Settled w3 (Normal tt) /\
     resume first (Normal Sample.summary) (elapse 30 w3)
     = Settled w4 (Normal tt) /\
     trace (elapse 100 w4)
     = trace w4 ++ [Called "append" [continuation1];
                    Called "append" [continuation2]]) /\
  (exists w3 w4 continuation1 continuation2,
     resume first (Normal Sample.summary) (world_of second)
     = Settled w3 (Normal tt) /\
     trace (elapse 250 w3) = trace w3 ++ [Called "append" [continuation1]] /\
     resume second (Normal Sample.longSummary) (elapse 250 w3)
     = Settled w4 (Normal tt) /\
     trace (elapse 100 w4) = trace w4 ++ [Called "append" [continuation2]]).
Proof.
  intros first second.
  split; [reflexivity|]. split; [reflexivity|].
  split.
  - destruct (overlapping_successes_append_twice Sample.toFrontend
                Sample.messages (Callback "setMessages") "append" "append" None
                (world_of first) Sample.world (world_of second)
                Sample.longSummary Sample.summary _ _
                [Sample.userMsg; Sample.assistantMsg; Sample.markerMsg]
                30 100 eq_refl eq_refl)
      as (w3 & w4 & c1 & c2 & Hrun1 & Hrun2 & _ & _ & Hfire);
      [simpl; lia|simpl; lia|reflexivity|reflexivity|lia|lia|].
    simpl in Hfire. destruct Hfire as [_ Hfire].
    by exists w3, w4, c1, c2.
  - destruct (overlapping_successes_append_twice Sample.toFrontend
                Sample.messages (Callback "setMessages") "append" "append" None
                Sample.world (world_of first) (world_of second)
                Sample.summary Sample.longSummary _ _
                [Sample.userMsg; Sample.assistantMsg; Sample.markerMsg]
                250 100 eq_refl eq_refl)
      as (w3 & w4 & c1 & c2 & Hrun1 & Hrun2 & _ & _ & Hfire);
      [simpl; lia|simpl; lia|reflexivity|reflexivity|lia|lia|].
    simpl in Hfire. destruct Hfire as [Hfirst Hsecond].
    by exists w3, w4, c1, c2.
Defined.

Lemma empty_response_empties_the_list_witness :
  is_Some (messagesAt (heap Sample.world) Sample.messages) /\
  exists w2 convertedMessages,
    resume (performCompaction Sample.toFrontend Sample.messages
              (Callback "setMessages") (Callback "append") false None
              Sample.world)
           (Normal {| Response.messages := [] |}) Sample.world
    = Settled w2 (Normal tt) /\
    last (trace w2) = Some (Called "setMessages" [convertedMessages]) /\
    messagesAt (heap w2) convertedMessages = Some [] /\
    timers w2 = [].
Proof.
  split; [vm_compute; by eexists|].
  destruct (empty_response_empties_the_list Sample.toFrontend Sample.messages
              "setMessages" (Callback "append") false None Sample.world
              Sample.world {| Response.messages := [] |} eq_refl)
    as (w2 & L & Hrun & Hlast & Hms & Htimers & _);
    [vm_compute; by eexists|].
  by exists w2, L.
Defined.

